(** * Volume view-state and transfer-function controller

    A shallow embedding of the viewer of [src/src/dicom-loader.js]
    (classes [DicomLoader] and [VolumeViewer3D]) and of the application
    shell that drives it ([MedicalImagingApp]).

    JavaScript numbers are read as real numbers: the arithmetic of the
    source ([+], [-], [*], [/], [Math.sqrt], [Math.cos], [Math.sin],
    [Math.PI]) is the arithmetic of [R].  Rounding, infinities and NaN are
    outside the model: the state keeps numbers only.  Where the source
    stores a value that is no number ([undefined], NaN, a function), the
    state keeps no value in its place: such a point is no point of a point
    list and such a multiplier is no multiplier.

    The rendering engine and the interaction library are collaborators
    whose objects the source only drives through method calls; the state
    they keep for the viewer (camera, transfer functions, property bag,
    tool bindings, volume cache) is held in records below.  Engine calls
    are taken to return normally unless an operation says otherwise;
    [render()], DOM updates and [console.log] lines leave the modelled
    state alone and are left out, and so are the lines the libraries
    write to the console themselves.  An object literal used as a lookup
    table ([toolMap], [tissueRanges], [tissueColors], ...) is given by its
    own entries; [table[name]] is [JS.get table name], which also finds
    the members the literal inherits from [Object.prototype]. *)

From Stdlib Require Import Reals Lra List String Ascii Bool Arith Lia.
From Stdlib Require Import DecimalString RNsatz ZArith Sorted Permutation.
Import ListNotations.

Local Open Scope R_scope.
Local Open Scope string_scope.
Local Open Scope list_scope.

(** ** JavaScript helpers *)

Module JS.

(** [c.toLowerCase()] on one ASCII character. *)
Definition lowerAscii (c : ascii) : ascii :=
  let n := nat_of_ascii c in
  if (65 <=? n)%nat && (n <=? 90)%nat then ascii_of_nat (n + 32) else c.

(** [String.prototype.toLowerCase], on ASCII text. *)
Fixpoint toLowerCase (s : string) : string :=
  match s with
  | EmptyString => EmptyString
  | String c rest => String (lowerAscii c) (toLowerCase rest)
  end.

(** [String.prototype.endsWith]. *)
Definition endsWith (s suffix : string) : bool :=
  (String.length suffix <=? String.length s)%nat &&
  String.eqb
    (substring (String.length s - String.length suffix)
               (String.length suffix) s)
    suffix.

(** [Array.prototype.some]. *)
Definition some {A : Type} (p : A -> bool) (xs : list A) : bool :=
  existsb p xs.

(** What [table[name]] finds on an object literal: an entry of its own, a
    member inherited from [Object.prototype], or [undefined]. *)
Inductive Lookup (A : Type) : Type :=
| Own (value : A)
| Inherited
| Undefined.

Arguments Own {A} value.
Arguments Inherited {A}.
Arguments Undefined {A}.

(** The member names an object literal inherits from [Object.prototype]
    in a browser.  What is found under each of them is truthy and is not
    [undefined]: a function, or the prototype itself under [__proto__]; it
    is no string and no number, and none of the property names the source
    reads ([min], [max], [width], [center], [windowLevel], [colorPoints],
    [opacity]) is defined on it. *)
Definition inheritedKeys : list string :=
  [ "constructor"; "hasOwnProperty"; "isPrototypeOf";
    "propertyIsEnumerable"; "toLocaleString"; "toString"; "valueOf";
    "__proto__"; "__defineGetter__"; "__defineSetter__";
    "__lookupGetter__"; "__lookupSetter__" ].

Definition isInherited (name : string) : bool :=
  existsb (String.eqb name) inheritedKeys.

(** [table[name]] on an object literal whose own entries [table] gives. *)
Definition get {A : Type} (table : string -> option A) (name : string)
  : Lookup A :=
  match table name with
  | Some value => Own value
  | None => if isInherited name then Inherited else Undefined
  end.

End JS.

(** ** Console *)

(** [console.warn(text, ...args)] and [console.error(text, ...args)];
    only string arguments are recorded. *)
Inductive ConsoleEntry : Type :=
| Warn (text : string) (args : list string)
| Error (text : string) (args : list string).

(** ** Engine objects *)

Definition Vec3 : Type := (R * R * R)%type.

Record Camera : Type := mkCamera {
  position : Vec3;
  focalPoint : Vec3;
  viewUp : Vec3;
  parallelProjection : bool;
  viewAngle : R;
  clippingRange : R * R
}.

(** [imageData.getBounds()]: [bounds[0..5]] =
    [xmin, xmax, ymin, ymax, zmin, zmax]. *)
Record Bounds : Type := mkBounds {
  bounds0 : R; bounds1 : R;
  bounds2 : R; bounds3 : R;
  bounds4 : R; bounds5 : R
}.

Record Volume : Type := mkVolume {
  imageData_bounds : Bounds
}.

(** Modelled from the spec: the engine's piecewise opacity function (its
    class is not part of this repository) is the opacity ramp, kept as the
    points inserted since it was last cleared, in insertion order. *)
Definition PiecewiseFunction : Type := list (R * R).

Definition removeAllPoints (f : PiecewiseFunction) : PiecewiseFunction := [].

Definition addPoint (x y : R) (f : PiecewiseFunction) : PiecewiseFunction :=
  f ++ [(x, y)].

(** Modelled from the spec: the engine's colour transfer function (its
    class is not part of this repository) is the list of colour stops,
    inserted in the order provided and never re-sorted. *)
Definition ColorTransferFunction : Type := list (R * (R * R * R)).

Definition removeAllRGBPoints (f : ColorTransferFunction)
  : ColorTransferFunction := [].

Definition addRGBPoint (x r g b : R) (f : ColorTransferFunction)
  : ColorTransferFunction :=
  f ++ [(x, (r, g, b))].

(** [volumeActor.actor.getProperty()]: the two transfer functions of
    component 0. *)
Record VolumeProperty : Type := mkVolumeProperty {
  scalarOpacity : PiecewiseFunction;
  rgbTransferFunction : ColorTransferFunction
}.

(** An entry of [viewport.getActors()]; [actor] may be missing. *)
Record ActorEntry : Type := mkActorEntry {
  actor : option VolumeProperty
}.

Record TransferFunctionPoint : Type := mkTFPoint {
  tf_value : R;
  tf_opacity : R;
  tf_color : R * R * R
}.

(** [viewport.getProperties()] / [viewport.setProperties(...)]: the
    engine's property bag.  The source reads [voiRange] and never assigns
    it. *)
Record ViewportProperties : Type := mkProperties {
  voiRange : option (R * R);             (* {lower, upper} *)
  globalOpacityMultiplier : option R;
  preset : option string;
  transferFunctionPoints : list TransferFunctionPoint
}.

Record Viewport : Type := mkViewport {
  camera : Camera;
  actors : list ActorEntry;
  properties : ViewportProperties
}.

(** ** Tool group *)

Inductive Tool : Type := TrackballRotateTool | PanTool | ZoomTool.

Definition toolName (t : Tool) : string :=
  match t with
  | TrackballRotateTool => "TrackballRotate"
  | PanTool => "Pan"
  | ZoomTool => "Zoom"
  end.

(** [MouseBindings.Primary] and [MouseBindings.Wheel]. *)
Inductive MouseBinding : Type := Primary | Wheel.

Definition MouseBinding_eqb (a b : MouseBinding) : bool :=
  match a, b with
  | Primary, Primary | Wheel, Wheel => true
  | _, _ => false
  end.

Inductive ToolMode : Type := Active | Passive.

Record ToolOptions : Type := mkToolOptions {
  mode : ToolMode;
  bindings : list MouseBinding
}.

Record ToolGroup : Type := mkToolGroup {
  rotateOptions : ToolOptions;
  panOptions : ToolOptions;
  zoomOptions : ToolOptions
}.

Definition getToolOptions (t : Tool) (g : ToolGroup) : ToolOptions :=
  match t with
  | TrackballRotateTool => rotateOptions g
  | PanTool => panOptions g
  | ZoomTool => zoomOptions g
  end.

Definition setToolOptions (t : Tool) (o : ToolOptions) (g : ToolGroup)
  : ToolGroup :=
  match t with
  | TrackballRotateTool => mkToolGroup o (panOptions g) (zoomOptions g)
  | PanTool => mkToolGroup (rotateOptions g) o (zoomOptions g)
  | ZoomTool => mkToolGroup (rotateOptions g) (panOptions g) o
  end.

Definition notPrimary (b : MouseBinding) : bool :=
  negb (MouseBinding_eqb b Primary).

(** Modelled from the spec: the tool group of the interaction library is
    not part of this repository.  Passivating a tool withdraws it from the
    primary button; whatever other binding it has (the wheel) stays, and
    the tool stays active exactly when a binding is left ("set all tools
    to passive first (except wheel zoom which stays active)", as
    [setActiveTool] puts it). *)
Definition setToolPassive (t : Tool) (g : ToolGroup) : ToolGroup :=
  let kept := filter notPrimary (bindings (getToolOptions t g)) in
  setToolOptions t
    (mkToolOptions (match kept with [] => Passive | _ => Active end) kept) g.

Fixpoint addBinding (b : MouseBinding) (bs : list MouseBinding)
  : list MouseBinding :=
  match bs with
  | [] => [b]
  | b' :: rest =>
      if MouseBinding_eqb b' b then bs else b' :: addBinding b rest
  end.

(** Modelled from the spec: activating a tool for a gesture binds that
    gesture to the tool, next to the bindings the tool already has;
    re-asserting a binding that is already there changes nothing. *)
Definition setToolActive (t : Tool) (newBindings : list MouseBinding)
    (g : ToolGroup) : ToolGroup :=
  setToolOptions t
    (mkToolOptions Active
       (fold_left (fun acc b => addBinding b acc) newBindings
                  (bindings (getToolOptions t g)))) g.

(** ** The viewer *)

(** The descriptive record the loader extracts for a slice. *)
Record Metadata : Type := mkMetadata {
  patientName : string;
  studyDate : string;
  modality : string
}.

Record VolumeData : Type := mkVolumeData {
  vd_volume : Volume;
  vd_imageIds : list string;
  vd_metadata : Metadata
}.

(** The fields of [VolumeViewer3D] the operations below depend on,
    together with the two pieces of ambient state they reach:
    [cache] is the entry of [cornerstone.cache] under [this.volumeId], and
    [console] collects the warnings and errors written so far. *)
Record VolumeViewer3D : Type := mkViewer {
  viewport : option Viewport;
  toolGroup : option ToolGroup;
  isInitialized : bool;
  currentVolumeData : option VolumeData;
  cache : option Volume;
  console : list ConsoleEntry
}.

Definition with_viewport (vp : option Viewport) (v : VolumeViewer3D) :=
  mkViewer vp (toolGroup v) (isInitialized v) (currentVolumeData v)
           (cache v) (console v).

Definition with_toolGroup (g : option ToolGroup) (v : VolumeViewer3D) :=
  mkViewer (viewport v) g (isInitialized v) (currentVolumeData v)
           (cache v) (console v).

Definition with_currentVolumeData (d : option VolumeData)
    (v : VolumeViewer3D) :=
  mkViewer (viewport v) (toolGroup v) (isInitialized v) d
           (cache v) (console v).

Definition with_cache (c : option Volume) (v : VolumeViewer3D) :=
  mkViewer (viewport v) (toolGroup v) (isInitialized v)
           (currentVolumeData v) c (console v).

Definition console_warn (text : string) (args : list string)
    (v : VolumeViewer3D) :=
  mkViewer (viewport v) (toolGroup v) (isInitialized v)
           (currentVolumeData v) (cache v)
           (console v ++ [Warn text args]).

Definition console_error (text : string) (args : list string)
    (v : VolumeViewer3D) :=
  mkViewer (viewport v) (toolGroup v) (isInitialized v)
           (currentVolumeData v) (cache v)
           (console v ++ [Error text args]).

Definition with_camera (c : Camera) (vp : Viewport) : Viewport :=
  mkViewport c (actors vp) (properties vp).

Definition with_actors (a : list ActorEntry) (vp : Viewport) : Viewport :=
  mkViewport (camera vp) a (properties vp).

Definition with_properties (p : ViewportProperties) (vp : Viewport)
  : Viewport :=
  mkViewport (camera vp) (actors vp) p.

(** ** Transfer function and windowing engine *)

Record WindowLevel : Type := mkWindowLevel {
  width : R;
  center : R
}.

(** A colour point of a preset: [{ value, color: [r, g, b, a] }]. *)
Record ColorPoint : Type := mkColorPoint {
  cp_value : R;
  cp_color : R * R * R * R
}.

Record Preset : Type := mkPreset {
  preset_name : string;
  colorPoints : option (list ColorPoint);
  windowLevel : option WindowLevel;
  opacity : option R
}.

(** Replace the transfer functions of the first actor of a viewport, as
    the setters below do after [actors[0].actor.getProperty()]. *)
Definition updateFirstActor (f : VolumeProperty -> VolumeProperty)
    (vp : Viewport) : Viewport :=
  match actors vp with
  | [] => vp
  | volumeActor :: others =>
      match actor volumeActor with
      | None => vp
      | Some property =>
          with_actors (mkActorEntry (Some (f property)) :: others) vp
      end
  end.

(** [VolumeViewer3D.setWindowLevel(width, center)] *)
Definition setWindowLevel (width center : R) (v : VolumeViewer3D)
  : VolumeViewer3D :=
  match viewport v, currentVolumeData v with
  | Some vp, Some _ =>
      with_viewport
        (Some (updateFirstActor
                 (fun property =>
                    let scalarOpacity0 :=
                      removeAllPoints (scalarOpacity property) in
                    let windowMin := center - width / 2 in
                    let windowMax := center + width / 2 in
                    let scalarOpacity1 := addPoint windowMin 0 scalarOpacity0 in
                    let scalarOpacity2 := addPoint windowMax 1 scalarOpacity1 in
                    mkVolumeProperty scalarOpacity2
                                     (rgbTransferFunction property))
                 vp)) v
  | _, _ => console_warn "No volume available for window level adjustment" [] v
  end.

(** [VolumeViewer3D.setWindowLevel(undefined, undefined)], the call made
    with the [width] and [center] of an object that has neither:
    [windowMin] and [windowMax] are NaN, so the ramp is cleared and the two
    points inserted are no points of the ramp as the state keeps it. *)
Definition setWindowLevelUndefined (v : VolumeViewer3D) : VolumeViewer3D :=
  match viewport v, currentVolumeData v with
  | Some vp, Some _ =>
      with_viewport
        (Some (updateFirstActor
                 (fun property =>
                    mkVolumeProperty
                      (removeAllPoints (scalarOpacity property))
                      (rgbTransferFunction property))
                 vp)) v
  | _, _ => console_warn "No volume available for window level adjustment" [] v
  end.

(** [VolumeViewer3D.setRGBTransferFunction(colorPoints)] *)
Definition setRGBTransferFunction (colorPoints : list ColorPoint)
    (v : VolumeViewer3D) : VolumeViewer3D :=
  match viewport v, currentVolumeData v with
  | Some vp, Some _ =>
      with_viewport
        (Some (updateFirstActor
                 (fun property =>
                    let cleared :=
                      removeAllRGBPoints (rgbTransferFunction property) in
                    mkVolumeProperty
                      (scalarOpacity property)
                      (fold_left
                         (fun f point =>
                            let '(r, g, b, _) := cp_color point in
                            addRGBPoint (cp_value point) r g b f)
                         colorPoints cleared))
                 vp)) v
  | _, _ => console_warn "No volume available for color adjustment" [] v
  end.

(** [VolumeViewer3D.setVolumeOpacity(opacity)] *)
Definition setVolumeOpacity (opacity : R) (v : VolumeViewer3D)
  : VolumeViewer3D :=
  match viewport v, currentVolumeData v with
  | Some vp, Some _ =>
      let p := properties vp in
      with_viewport
        (Some (with_properties
                 (mkProperties (voiRange p) (Some opacity) (preset p)
                               (transferFunctionPoints p)) vp)) v
  | _, _ => console_warn "No volume available for opacity change" [] v
  end.

(** [VolumeViewer3D.setVolumeOpacity(value)] for a [value] that is no
    number: the property bag is written, and holds no multiplier. *)
Definition setVolumeOpacityNoNumber (v : VolumeViewer3D) : VolumeViewer3D :=
  match viewport v, currentVolumeData v with
  | Some vp, Some _ =>
      let p := properties vp in
      with_viewport
        (Some (with_properties
                 (mkProperties (voiRange p) None (preset p)
                               (transferFunctionPoints p)) vp)) v
  | _, _ => console_warn "No volume available for opacity change" [] v
  end.

(** [VolumeViewer3D.apply3DPreset(preset)] *)
Definition apply3DPreset (preset : Preset) (v : VolumeViewer3D)
  : VolumeViewer3D :=
  match viewport v, currentVolumeData v with
  | Some _, Some _ =>
      (* 1. window level first *)
      let v1 :=
        match windowLevel preset with
        | Some wl => setWindowLevel (width wl) (center wl) v
        | None => v
        end in
      (* 2. colour mapping *)
      let v2 :=
        match colorPoints preset with
        | Some (p :: ps) => setRGBTransferFunction (p :: ps) v1
        | _ => v1
        end in
      (* global opacity if specified *)
      match opacity preset with
      | Some o => setVolumeOpacity o v2
      | None => v2
      end
  | _, _ => console_warn "No volume available for preset application" [] v
  end.

(** [VolumeViewer3D.getWindowLevel()] *)
Definition getWindowLevel (v : VolumeViewer3D) : WindowLevel :=
  match viewport v, currentVolumeData v with
  | Some vp, Some _ =>
      match voiRange (properties vp) with
      | Some (lower, upper) =>
          let width := upper - lower in
          let center := lower + width / 2 in
          mkWindowLevel width center
      | None => mkWindowLevel 400 50
      end
  | _, _ => mkWindowLevel 400 50
  end.

(** *** Tissue opacities *)

Record Range : Type := mkRange {
  range_min : R;
  range_max : R
}.

(** The own entries of the object [tissueRanges] of
    [setTissueOpacities]. *)
Definition tissueRanges (tissue : string) : option Range :=
  if String.eqb tissue "bone" then Some (mkRange 200 2000)
  else if String.eqb tissue "softtissue" then Some (mkRange (-100) 200)
  else if String.eqb tissue "lung" then Some (mkRange (-1000) (-100))
  else if String.eqb tissue "vessel" then Some (mkRange 100 400)
  else None.

(** The own entries of the object [tissueColors] of [getTissueColor]. *)
Definition tissueColors (tissue : string) : option (R * R * R) :=
  if String.eqb tissue "bone" then Some (1, 9 / 10, 8 / 10)
  else if String.eqb tissue "softtissue" then Some (9 / 10, 7 / 10, 6 / 10)
  else if String.eqb tissue "lung" then Some (4 / 10, 6 / 10, 8 / 10)
  else if String.eqb tissue "vessel" then Some (8 / 10, 2 / 10, 2 / 10)
  else None.

(** [VolumeViewer3D.getTissueColor(tissue)]:
    [tissueColors[tissue] || [1.0, 1.0, 1.0]].  An inherited member is
    truthy and is returned as it is; it is no colour ([None]). *)
Definition getTissueColor (tissue : string) : option (R * R * R) :=
  match JS.get tissueColors tissue with
  | JS.Own color => Some color
  | JS.Inherited => None
  | JS.Undefined => Some (1, 1, 1)
  end.

(** The body of the [forEach] over [Object.entries(tissueOpacities)]:
    the points one entry pushes.  A point is pushed twice whenever
    [tissueRanges[tissue]] is truthy; under an inherited member [range.min]
    and [range.max] are [undefined], and the point pushed has no value
    ([None]). *)
Definition tissuePoints (entry : string * R)
  : list (option TransferFunctionPoint) :=
  let '(tissue, opacity) := entry in
  let point (value : option R) :=
    match value, getTissueColor tissue with
    | Some x, Some color => Some (mkTFPoint x opacity color)
    | _, _ => None
    end in
  match JS.get tissueRanges tissue with
  | JS.Own range =>
      [ point (Some (range_min range)); point (Some (range_max range)) ]
  | JS.Inherited => [ point None; point None ]
  | JS.Undefined => []
  end.

(** The points of a list that the state keeps: those with a value and a
    colour. *)
Fixpoint keptPoints (points : list (option TransferFunctionPoint))
  : list TransferFunctionPoint :=
  match points with
  | [] => []
  | Some point :: rest => point :: keptPoints rest
  | None :: rest => keptPoints rest
  end.

(** [VolumeViewer3D.setTissueOpacities(tissueOpacities)]; the argument is
    the object as [Object.entries] lists it. *)
Definition setTissueOpacities (tissueOpacities : list (string * R))
    (v : VolumeViewer3D) : VolumeViewer3D :=
  match viewport v, currentVolumeData v with
  | Some vp, Some _ =>
      let transferFunctionPoints :=
        fold_left (fun points entry => points ++ tissuePoints entry)
                  tissueOpacities [] in
      match transferFunctionPoints with
      | [] => v
      | _ :: _ =>
          let p := properties vp in
          with_viewport
            (Some (with_properties
                     (mkProperties (voiRange p) (globalOpacityMultiplier p)
                                   (preset p)
                                   (keptPoints transferFunctionPoints))
                     vp)) v
      end
  | _, _ =>
      console_warn "No volume available for tissue opacity adjustment" [] v
  end.

(** ** Tool / input state machine *)

(** [VolumeViewer3D.setupToolGroup()]: the bindings a fresh tool group
    starts with once the three tools are added to it. *)
Definition freshToolGroup : ToolGroup :=
  mkToolGroup (mkToolOptions Passive []) (mkToolOptions Passive [])
              (mkToolOptions Passive []).

Definition setupToolGroup (v : VolumeViewer3D) : VolumeViewer3D :=
  let g0 := freshToolGroup in
  (* mouse wheel zoom is always available *)
  let g1 := setToolActive ZoomTool [Wheel] g0 in
  (* TrackballRotate is the default tool of the primary button *)
  let g2 := setToolActive TrackballRotateTool [Primary] g1 in
  let g3 := setToolPassive PanTool g2 in
  with_toolGroup (Some g3) v.

(** The own entries of the object [toolMap] of
    [VolumeViewer3D.setActiveTool]: logical name to tool. *)
Definition toolMap (name : string) : option Tool :=
  if String.eqb name "TrackballRotate" then Some TrackballRotateTool
  else if String.eqb name "Pan" then Some PanTool
  else if String.eqb name "Zoom" then Some ZoomTool
  else None.

(** [VolumeViewer3D.setActiveTool(toolName)].  Under an inherited member
    [actualToolName] is truthy and the guard is passed; the member names
    no tool of the group, so the last call leaves the bindings of the
    three tools as the calls before it made them. *)
Definition setActiveTool (name : string) (v : VolumeViewer3D)
  : VolumeViewer3D :=
  match toolGroup v with
  | None => console_warn "Tool group not initialized" [] v
  | Some g =>
      match JS.get toolMap name with
      | JS.Undefined => console_warn "Invalid tool name:" [name] v
      | actualToolName =>
          (* all tools passive first *)
          let g1 := setToolPassive TrackballRotateTool g in
          let g2 := setToolPassive PanTool g1 in
          let g3 := setToolPassive ZoomTool g2 in
          (* reactivate wheel zoom *)
          let g4 := setToolActive ZoomTool [Wheel] g3 in
          (* the selected tool takes the primary button *)
          let g5 :=
            match actualToolName with
            | JS.Own actualTool => setToolActive actualTool [Primary] g4
            | _ => g4
            end in
          with_toolGroup (Some g5) v
      end
  end.

(** [VolumeViewer3D.setActiveTool(value)] for a [value] that is no string
    and, as a property name, is no member of [toolMap]: what the
    application passes when its own table yields an inherited member. *)
Definition setActiveToolOfMember (v : VolumeViewer3D) : VolumeViewer3D :=
  match toolGroup v with
  | None => console_warn "Tool group not initialized" [] v
  | Some _ => console_warn "Invalid tool name:" [] v
  end.

(** ** Camera and orientation controller *)

(** [VolumeViewer3D.setupInitialCamera()] *)
Definition setupInitialCamera (v : VolumeViewer3D) : VolumeViewer3D :=
  match viewport v with
  | None => v
  | Some vp =>
      let camera0 := camera vp in
      let camera1 :=
        mkCamera (position camera0) (focalPoint camera0) (viewUp camera0)
                 true 45 (clippingRange camera0) in
      let camera2 :=
        match cache v with
        | Some volume =>
            let bounds := imageData_bounds volume in
            let center :=
              ((bounds0 bounds + bounds1 bounds) / 2,
               (bounds2 bounds + bounds3 bounds) / 2,
               (bounds4 bounds + bounds5 bounds) / 2) in
            let diagonal :=
              sqrt ((bounds1 bounds - bounds0 bounds) ^ 2 +
                    (bounds3 bounds - bounds2 bounds) ^ 2 +
                    (bounds5 bounds - bounds4 bounds) ^ 2) in
            let '(center0, center1, center2) := center in
            mkCamera
              (center0 + diagonal * (8 / 10),
               center1 - diagonal * (8 / 10),
               center2 + diagonal * (8 / 10))
              center
              (0, 0, 1)
              (parallelProjection camera1)
              (viewAngle camera1)
              (diagonal * (1 / 100), diagonal * 100)
        | None => camera1
        end in
      with_viewport (Some (with_camera camera2 vp)) v
  end.

(** [VolumeViewer3D.resetCamera()]; [engineReset] is what the engine's
    own [viewport.resetCamera()] does to the camera. *)
Definition resetCamera (engineReset : Camera -> Camera)
    (v : VolumeViewer3D) : VolumeViewer3D :=
  match viewport v with
  | None => console_warn "No viewport available for camera reset" [] v
  | Some vp =>
      setupInitialCamera
        (with_viewport (Some (with_camera (engineReset (camera vp)) vp)) v)
  end.

(** [VolumeViewer3D.rotateAroundAxis(axis, degrees)] *)
Definition rotateAroundAxis (axis : string) (degrees : R)
    (v : VolumeViewer3D) : VolumeViewer3D :=
  match viewport v with
  | None => v
  | Some vp =>
      let camera0 := camera vp in
      let radians := (degrees * PI) / 180 in
      let '(position0, position1, position2) := position camera0 in
      let '(focalPoint0, focalPoint1, focalPoint2) := focalPoint camera0 in
      let '(viewUp0, viewUp1, viewUp2) := viewUp camera0 in
      let direction0 := position0 - focalPoint0 in
      let direction1 := position1 - focalPoint1 in
      let direction2 := position2 - focalPoint2 in
      let update (newPosition newViewUp : Vec3) :=
        with_viewport
          (Some (with_camera
                   (mkCamera newPosition (focalPoint camera0) newViewUp
                             (parallelProjection camera0)
                             (viewAngle camera0)
                             (clippingRange camera0)) vp)) v in
      let lowered := JS.toLowerCase axis in
      if String.eqb lowered "x" then
        update
          (position0,
           focalPoint1 + direction1 * cos radians - direction2 * sin radians,
           focalPoint2 + direction1 * sin radians + direction2 * cos radians)
          (viewUp0,
           viewUp1 * cos radians - viewUp2 * sin radians,
           viewUp1 * sin radians + viewUp2 * cos radians)
      else if String.eqb lowered "y" then
        update
          (focalPoint0 + direction0 * cos radians + direction2 * sin radians,
           position1,
           focalPoint2 - direction0 * sin radians + direction2 * cos radians)
          (viewUp0 * cos radians + viewUp2 * sin radians,
           viewUp1,
           - viewUp0 * sin radians + viewUp2 * cos radians)
      else if String.eqb lowered "z" then
        update
          (focalPoint0 + direction0 * cos radians - direction1 * sin radians,
           focalPoint1 + direction0 * sin radians + direction1 * cos radians,
           position2)
          (viewUp0 * cos radians - viewUp1 * sin radians,
           viewUp0 * sin radians + viewUp1 * cos radians,
           viewUp2)
      else if String.eqb lowered "o" then
        (* the stray case reads an unbound [e]; the surrounding
           try/catch reports the failure *)
        console_error "Error applying manual rotation:" [] v
      else
        console_warn "Invalid rotation axis:" [axis] v
  end.

(** ** Slice loader ([DicomLoader]) *)

(** What reading and decoding one file comes to; it is decided by the
    browser's file reader and the engine's image loader. *)
Inductive ReadOutcome : Type :=
| ReadFails
| DecodeFails (message : string)
| Decoded (imageId : string) (metadata : Metadata).

Record File : Type := mkFile {
  file_name : string;
  file_type : string;
  file_outcome : ReadOutcome
}.

Record LoadedImage : Type := mkLoadedImage {
  li_imageId : string;
  li_metadata : Metadata;
  li_fileName : string
}.

Record LoadResults : Type := mkLoadResults {
  successful : list LoadedImage;
  failed : list (string * string);       (* { file, error } *)
  total : nat
}.

(** [DicomLoader.isDicomFile(file)] *)
Definition isDicomFile (file : File) : bool :=
  let validExtensions := [".dcm"; ".dicom"; ".DCM"; ".DICOM"] in
  let hasValidExtension :=
    JS.some (fun ext =>
               JS.endsWith (JS.toLowerCase (file_name file))
                           (JS.toLowerCase ext))
            validExtensions in
  let hasValidMimeType :=
    String.eqb (file_type file) "application/dicom" ||
    String.eqb (file_type file) "application/octet-stream" ||
    String.eqb (file_type file) "" in
  hasValidExtension && hasValidMimeType.

(** [DicomLoader.loadDicomFile(file)]: the settled promise, [inl] a
    rejection message and [inr] the loaded image. *)
Definition loadDicomFile (file : File) : string + LoadedImage :=
  if negb (isDicomFile file) then inl "Invalid DICOM file"
  else
    match file_outcome file with
    | ReadFails => inl "Failed to read file"
    | DecodeFails message =>
        inl ("Failed to load DICOM image: " ++ message)%string
    | Decoded imageId metadata =>
        inr (mkLoadedImage imageId metadata (file_name file))
    end.

(** [DicomLoader.loadMultipleDicomFiles(files)] *)
Definition loadMultipleDicomFiles (files : list File) : LoadResults :=
  let results := map (fun file => (file, loadDicomFile file)) files in
  fold_left
    (fun acc result =>
       match snd result with
       | inr value =>
           mkLoadResults (successful acc ++ [value]) (failed acc) (total acc)
       | inl message =>
           mkLoadResults (successful acc)
                         (failed acc ++ [(file_name (fst result), message)])
                         (total acc)
       end)
    results (mkLoadResults [] [] (List.length files)).

(** ** Volume lifecycle *)

(** A method that may throw: it returns normally, or raises an error with
    a message; either way it leaves a state behind. *)
Inductive Completion (A : Type) : Type :=
| Return (state : A)
| Throw (message : string) (state : A).

Arguments Return {A} state.
Arguments Throw {A} message state.

(** How far the engine gets when asked to build, load and attach the
    volume: the three awaited calls of [displayVolume] may each reject. *)
Inductive EngineOutcome : Type :=
| CreateFails (message : string)
| LoadFails (volume : Volume) (message : string)
| AttachFails (volume : Volume) (message : string)
| Attached (volume : Volume) (volumeActors : list ActorEntry).

(** [VolumeViewer3D.displayVolume(imageIds, metadata)] *)
Definition displayVolume (engine : EngineOutcome) (imageIds : list string)
    (metadata : Metadata) (v : VolumeViewer3D)
  : Completion VolumeViewer3D :=
  if negb (isInitialized v) then Throw "Volume viewer not initialized" v
  else
    let fail (message : string) (s : VolumeViewer3D) :=
      Throw message (console_error "Error displaying volume:" [message] s) in
    (* an existing volume is evicted from the cache *)
    let v0 := with_cache None v in
    match engine with
    | CreateFails message => fail message v0
    | LoadFails volume message => fail message (with_cache (Some volume) v0)
    | AttachFails volume message =>
        fail message
             (with_currentVolumeData
                (Some (mkVolumeData volume imageIds metadata))
                (with_cache (Some volume) v0))
    | Attached volume volumeActors =>
        let v1 := with_cache (Some volume) v0 in
        let v2 :=
          with_currentVolumeData
            (Some (mkVolumeData volume imageIds metadata)) v1 in
        match viewport v2 with
        | None =>
            fail "Cannot read properties of null (reading 'setProperties')" v2
        | Some vp =>
            let p := properties vp in
            let vp1 := with_actors volumeActors vp in
            let vp2 :=
              with_properties
                (mkProperties (voiRange p) (globalOpacityMultiplier p)
                              (Some "CT-Bone") (transferFunctionPoints p))
                vp1 in
            Return (setupInitialCamera (with_viewport (Some vp2) v2))
        end
    end.

(** [VolumeViewer3D.getCurrentVolumeInfo().imageCount] *)
Definition imageCount (v : VolumeViewer3D) : option nat :=
  match viewport v, currentVolumeData v with
  | Some _, Some data => Some (List.length (vd_imageIds data))
  | _, _ => None
  end.

(** ** Application shell ([MedicalImagingApp]) *)

Module App.

Inductive MessageType : Type := loading | success | error.

Record MedicalImagingApp : Type := mkApp {
  volumeViewer : option VolumeViewer3D;
  currentImages : list LoadedImage;
  messages : list (MessageType * string)  (* what [showMessage] displayed *)
}.

Definition with_volumeViewer (viewer : option VolumeViewer3D)
    (app : MedicalImagingApp) : MedicalImagingApp :=
  mkApp viewer (currentImages app) (messages app).

Definition showMessage (type : MessageType) (message : string)
    (app : MedicalImagingApp) : MedicalImagingApp :=
  mkApp (volumeViewer app) (currentImages app)
        (messages app ++ [(type, message)]).

(** Template-literal rendering of a count. *)
Definition showNat (n : nat) : string :=
  NilZero.string_of_uint (Nat.to_uint n).

(** [MedicalImagingApp.loadVolumeFromFiles(files)] *)
Definition loadVolumeFromFiles (engine : EngineOutcome)
    (files : list File) (app : MedicalImagingApp)
  : Completion MedicalImagingApp :=
  let results := loadMultipleDicomFiles files in
  if (List.length (successful results) <? 2)%nat
  then Throw "Need at least 2 DICOM files" app
  else
    let imageIds := map li_imageId (successful results) in
    match successful results, volumeViewer app with
    | first :: _, Some viewer =>
        let metadata := li_metadata first in
        match displayVolume engine imageIds metadata viewer with
        | Throw message viewer' =>
            Throw message (with_volumeViewer (Some viewer') app)
        | Return viewer' =>
            let viewer'' := setActiveTool "TrackballRotate" viewer' in
            let message :=
              ("Successfully created 3D volume from " ++
               showNat (List.length (successful results)) ++ " files")%string in
            let message :=
              if (0 <? List.length (failed results))%nat
              then (message ++ " (" ++
                    showNat (List.length (failed results)) ++
                    " failed)")%string
              else message in
            Return
              (showMessage success message
                 (mkApp (Some viewer'') (successful results)
                        (messages app)))
        end
    | _, _ =>
        Throw "Cannot read properties of null (reading 'displayVolume')" app
    end.

(** [MedicalImagingApp.handleFileUpload(event)]; [files] is
    [event.target.files]. *)
Definition handleFileUpload (engine : EngineOutcome)
    (files : option (list File)) (app : MedicalImagingApp)
  : MedicalImagingApp :=
  match files with
  | None =>
      showMessage error
        "Please upload at least 2 DICOM files from the same series." app
  | Some files =>
      if (List.length files <? 2)%nat then
        showMessage error
          "Please upload at least 2 DICOM files from the same series." app
      else
        let app1 := showMessage loading "Processing DICOM files..." app in
        match loadVolumeFromFiles engine files app1 with
        | Return app2 => app2
        | Throw message app2 =>
            showMessage error
              ("Failed to load DICOM files: " ++ message)%string app2
        end
  end.

(** The own entries of the object literal of
    [MedicalImagingApp.setActiveTool]: button name to the viewer's logical
    tool name. *)
Definition viewerToolOf (name : string) : option string :=
  if String.eqb name "Rotate" then Some "TrackballRotate"
  else if String.eqb name "Pan" then Some "Pan"
  else if String.eqb name "Zoom" then Some "Zoom"
  else None.

(** [MedicalImagingApp.setActiveTool(toolName, buttonElement)] *)
Definition setActiveTool (name : string) (app : MedicalImagingApp)
  : MedicalImagingApp :=
  match JS.get viewerToolOf name with
  | JS.Own viewerTool =>
      with_volumeViewer
        (option_map (setActiveTool viewerTool) (volumeViewer app)) app
  | JS.Inherited =>
      with_volumeViewer
        (option_map setActiveToolOfMember (volumeViewer app)) app
  | JS.Undefined => app
  end.

End App.

(** ** Further operations of the viewer *)

(** [VolumeViewer3D.setPresetView(view)] *)
Definition setPresetView (view : string) (v : VolumeViewer3D)
  : VolumeViewer3D :=
  match viewport v with
  | None => v
  | Some vp =>
      match cache v with
      | None => v
      | Some volume =>
          let bounds := imageData_bounds volume in
          let center0 := (bounds0 bounds + bounds1 bounds) / 2 in
          let center1 := (bounds2 bounds + bounds3 bounds) / 2 in
          let center2 := (bounds4 bounds + bounds5 bounds) / 2 in
          let diagonal :=
            sqrt ((bounds1 bounds - bounds0 bounds) ^ 2 +
                  (bounds3 bounds - bounds2 bounds) ^ 2 +
                  (bounds5 bounds - bounds4 bounds) ^ 2) in
          let camera0 := camera vp in
          let place (newPosition newViewUp : Vec3) :=
            with_viewport
              (Some (with_camera
                       (mkCamera newPosition (center0, center1, center2)
                                 newViewUp
                                 (parallelProjection camera0)
                                 (viewAngle camera0)
                                 (clippingRange camera0)) vp)) v in
          let lowered := JS.toLowerCase view in
          if String.eqb lowered "anterior" then
            place (center0, center1 - diagonal, center2) (0, 0, 1)
          else if String.eqb lowered "posterior" then
            place (center0, center1 + diagonal, center2) (0, 0, 1)
          else if String.eqb lowered "left" then
            place (center0 - diagonal, center1, center2) (0, 0, 1)
          else if String.eqb lowered "right" then
            place (center0 + diagonal, center1, center2) (0, 0, 1)
          else if String.eqb lowered "superior" then
            place (center0, center1, center2 + diagonal) (0, 1, 0)
          else if String.eqb lowered "inferior" then
            place (center0, center1, center2 - diagonal) (0, 1, 0)
          else
            console_warn "Invalid preset view:" [view] v
      end
  end.

(** [VolumeViewer3D.setRotationEnabled(enabled)]; of the two methods of
    this name in the class body the later one is in force. *)
Definition setRotationEnabled (enabled : bool) (v : VolumeViewer3D)
  : VolumeViewer3D :=
  match toolGroup v with
  | None => v
  | Some g =>
      if enabled
      then with_toolGroup
             (Some (setToolActive TrackballRotateTool [Primary] g)) v
      else with_toolGroup (Some (setToolPassive TrackballRotateTool g)) v
  end.

(** The own entries of the object [opacityPresets] of
    [applyOpacityPreset]. *)
Definition opacityPresets (presetName : string) : option R :=
  if String.eqb presetName "default" then Some (5 / 10)
  else if String.eqb presetName "bone" then Some (7 / 10)
  else if String.eqb presetName "soft" then Some (4 / 10)
  else if String.eqb presetName "lung" then Some (3 / 10)
  else if String.eqb presetName "vessel" then Some (8 / 10)
  else if String.eqb presetName "transparent" then Some (2 / 10)
  else if String.eqb presetName "opaque" then Some (9 / 10)
  else None.

(** [VolumeViewer3D.applyOpacityPreset(presetName)].  An inherited
    member is not [undefined]: it is passed on as the opacity. *)
Definition applyOpacityPreset (presetName : string) (v : VolumeViewer3D)
  : VolumeViewer3D :=
  match JS.get opacityPresets presetName with
  | JS.Own opacity => setVolumeOpacity opacity v
  | JS.Inherited => setVolumeOpacityNoNumber v
  | JS.Undefined => v
  end.

(** The own entries of the object [presets] of
    [applyWindowLevelPreset]. *)
Definition windowLevelPresets (presetName : string) : option WindowLevel :=
  if String.eqb presetName "bone" then Some (mkWindowLevel 2000 300)
  else if String.eqb presetName "soft-tissue" then Some (mkWindowLevel 400 50)
  else if String.eqb presetName "lung" then Some (mkWindowLevel 1500 (-600))
  else if String.eqb presetName "brain" then Some (mkWindowLevel 100 50)
  else if String.eqb presetName "liver" then Some (mkWindowLevel 150 30)
  else if String.eqb presetName "mediastinum" then
    Some (mkWindowLevel 350 50)
  else if String.eqb presetName "abdomen" then Some (mkWindowLevel 400 60)
  else if String.eqb presetName "spine" then Some (mkWindowLevel 400 50)
  else if String.eqb presetName "angio" then Some (mkWindowLevel 600 100)
  else None.

(** [VolumeViewer3D.applyWindowLevelPreset(presetName)].  An inherited
    member is truthy, and has no [width] and no [center]. *)
Definition applyWindowLevelPreset (presetName : string)
    (v : VolumeViewer3D) : VolumeViewer3D :=
  match JS.get windowLevelPresets presetName with
  | JS.Own preset => setWindowLevel (width preset) (center preset) v
  | JS.Inherited => setWindowLevelUndefined v
  | JS.Undefined => v
  end.




(** [VolumeViewer3D.destroy()], on the state modelled here. *)
Definition destroy (v : VolumeViewer3D) : VolumeViewer3D :=
  mkViewer None None false None None (console v).

(** ** Volume description ([DicomLoader.createVolumeFromImages]) *)

(** The metadata of a slice as [createVolumeFromImages] reads it: an
    instance number (an integer, when present) and the pixel spacing
    text, next to the descriptive record. *)
Record SliceMetadata : Type := mkSliceMetadata {
  sm_instanceNumber : option Z;
  sm_pixelSpacing : option string;
  sm_info : Metadata
}.

(** An element of [images]: [{ image: { width, height }, imageId,
    metadata }]. *)
Record SliceImage : Type := mkSliceImage {
  si_width : R;
  si_height : R;
  si_imageId : string;
  si_metadata : SliceMetadata
}.

(** [a.metadata.instanceNumber || 0] *)
Definition sortPosition (a : SliceImage) : Z :=
  match sm_instanceNumber (si_metadata a) with
  | Some n => n
  | None => 0%Z
  end.

(** [images.sort((a, b) => aPos - bPos)].  [Array.prototype.sort] is
    stable, and a stable sort has one result; it is computed here by
    insertion, the first image going in front of the sorted rest and
    behind nothing it does not exceed. *)
Fixpoint insertImage (a : SliceImage) (sorted : list SliceImage)
  : list SliceImage :=
  match sorted with
  | [] => [a]
  | b :: rest =>
      if (sortPosition a <=? sortPosition b)%Z
      then a :: b :: rest
      else b :: insertImage a rest
  end.

Fixpoint sortImages (images : list SliceImage) : list SliceImage :=
  match images with
  | [] => []
  | a :: rest => insertImage a (sortImages rest)
  end.

(** A JavaScript value that is a string or a number. *)
Inductive StringOrNumber : Type :=
| Str (s : string)
| Num (x : R).

(** The separator of the values of a DICOM text, the backslash. *)
Definition backslash : ascii := ascii_of_nat 92.

(** [s.split(sep)] for a one-character separator, by the pieces in
    order; the piece being read is kept in reverse in [piece]. *)
Fixpoint splitAcc (sep : ascii) (s : string) (piece : string)
  : list string :=
  match s with
  | EmptyString => [piece]
  | String c rest =>
      if Ascii.eqb c sep
      then piece :: splitAcc sep rest EmptyString
      else splitAcc sep rest (piece ++ String c EmptyString)%string
  end.

Definition split (sep : ascii) (s : string) : list string :=
  splitAcc sep s EmptyString.

(** [parts[i] || 1]: a missing or empty piece gives the number 1. *)
Definition pieceOrOne (parts : option (list string)) (i : nat)
  : StringOrNumber :=
  match parts with
  | None => Num 1
  | Some pieces =>
      match nth_error pieces i with
      | Some EmptyString => Num 1
      | Some part => Str part
      | None => Num 1
      end
  end.

Record Spacing : Type := mkSpacing {
  spacing_x : StringOrNumber;
  spacing_y : StringOrNumber;
  spacing_z : StringOrNumber
}.

(** [DicomLoader.calculateVolumeSpacing(sortedImages)] *)
Definition calculateVolumeSpacing (sortedImages : list SliceImage)
  : Spacing :=
  let defaultSpacing := mkSpacing (Num 1) (Num 1) (Num 1) in
  match sortedImages with
  | firstImage :: _ :: _ =>
      let parts :=
        option_map (split backslash)
                   (sm_pixelSpacing (si_metadata firstImage)) in
      mkSpacing (pieceOrOne parts 0) (pieceOrOne parts 1) (Num (Rabs 1))
  | _ => defaultSpacing
  end.

Record VolumeDescription : Type := mkVolumeDescription {
  vdesc_imageIds : list string;
  vdesc_width : R;
  vdesc_height : R;
  vdesc_depth : nat;
  vdesc_metadata : SliceMetadata;
  vdesc_spacing : Spacing
}.

(** [DicomLoader.createVolumeFromImages(images)]: [inl] the message of
    the error thrown, [inr] the description returned.  (The sort also
    reorders the caller's array; that is not part of the result.) *)
Definition createVolumeFromImages (images : list SliceImage)
  : string + VolumeDescription :=
  match images with
  | [] => inl "No images provided for volume creation"
  | image0 :: _ =>
      let sortedImages := sortImages images in
      let firstImage := hd image0 sortedImages in
      inr (mkVolumeDescription
             (map si_imageId sortedImages)
             (si_width firstImage)
             (si_height firstImage)
             (List.length sortedImages)
             (si_metadata firstImage)
             (calculateVolumeSpacing sortedImages))
  end.

(** ** Further methods of the application shell *)

Module Shell.

(** The own entries of the object [presets] of
    [MedicalImagingApp.apply3DPreset]. *)
Definition presets (presetName : string) : option Preset :=
  if String.eqb presetName "ct-bone" then
    Some (mkPreset "CT Bone"
            (Some [ mkColorPoint (-1000) (0, 0, 0, 0);
                    mkColorPoint 200 (8 / 10, 6 / 10, 4 / 10, 1 / 10);
                    mkColorPoint 800 (1, 9 / 10, 8 / 10, 3 / 10);
                    mkColorPoint 2000 (1, 1, 1, 1) ])
            (Some (mkWindowLevel 2000 300)) (Some (7 / 10)))
  else if String.eqb presetName "ct-soft-tissue" then
    Some (mkPreset "CT Soft Tissue"
            (Some [ mkColorPoint (-100) (0, 0, 0, 0);
                    mkColorPoint 0 (6 / 10, 4 / 10, 3 / 10, 2 / 10);
                    mkColorPoint 100 (9 / 10, 7 / 10, 6 / 10, 5 / 10);
                    mkColorPoint 200 (1, 8 / 10, 7 / 10, 8 / 10) ])
            (Some (mkWindowLevel 400 50)) (Some (6 / 10)))
  else if String.eqb presetName "ct-lung" then
    Some (mkPreset "CT Lung"
            (Some [ mkColorPoint (-1000) (0, 0, 0, 0);
                    mkColorPoint (-800) (2 / 10, 3 / 10, 6 / 10, 1 / 10);
                    mkColorPoint (-300) (4 / 10, 6 / 10, 8 / 10, 3 / 10);
                    mkColorPoint 100 (8 / 10, 9 / 10, 1, 7 / 10) ])
            (Some (mkWindowLevel 1500 (-600))) (Some (5 / 10)))
  else if String.eqb presetName "ct-angiography" then
    Some (mkPreset "CT Angiography"
            (Some [ mkColorPoint (-100) (0, 0, 0, 0);
                    mkColorPoint 100 (3 / 10, 1 / 10, 1 / 10, 1 / 10);
                    mkColorPoint 300 (8 / 10, 2 / 10, 2 / 10, 4 / 10);
                    mkColorPoint 500 (1, 4 / 10, 4 / 10, 9 / 10) ])
            (Some (mkWindowLevel 600 100)) (Some (8 / 10)))
  else if String.eqb presetName "mri-brain" then
    Some (mkPreset "MRI Brain"
            (Some [ mkColorPoint 0 (0, 0, 0, 0);
                    mkColorPoint 64 (2 / 10, 2 / 10, 4 / 10, 2 / 10);
                    mkColorPoint 153 (6 / 10, 6 / 10, 8 / 10, 5 / 10);
                    mkColorPoint 255 (9 / 10, 9 / 10, 1, 8 / 10) ])
            (Some (mkWindowLevel 255 128)) (Some (7 / 10)))
  else if String.eqb presetName "pet-scan" then
    Some (mkPreset "PET Scan"
            (Some [ mkColorPoint 0 (0, 0, 0, 0);
                    mkColorPoint 1500 (0, 0, 1, 3 / 10);
                    mkColorPoint 3000 (0, 1, 0, 6 / 10);
                    mkColorPoint 4000 (1, 1, 0, 8 / 10);
                    mkColorPoint 5000 (1, 0, 0, 1) ])
            (Some (mkWindowLevel 5000 2500)) (Some (9 / 10)))
  else if String.eqb presetName "contrast-enhanced" then
    Some (mkPreset "Contrast Enhanced"
            (Some [ mkColorPoint (-100) (0, 0, 0, 0);
                    mkColorPoint 50 (1 / 10, 1 / 10, 3 / 10, 1 / 10);
                    mkColorPoint 200 (3 / 10, 5 / 10, 8 / 10, 4 / 10);
                    mkColorPoint 400 (7 / 10, 8 / 10, 1, 7 / 10);
                    mkColorPoint 600 (1, 1, 1, 1) ])
            (Some (mkWindowLevel 1000 200)) (Some (75 / 100)))
  else None.

(** [MedicalImagingApp.apply3DPreset(presetName)].  An inherited member
    is truthy and is handed to the viewer; it has no [windowLevel], no
    [colorPoints] and no [opacity], and its name is only logged. *)
Definition apply3DPreset (presetName : string)
    (app : App.MedicalImagingApp) : App.MedicalImagingApp :=
  match JS.get presets presetName, App.volumeViewer app with
  | JS.Own preset, Some viewer =>
      App.with_volumeViewer (Some (apply3DPreset preset viewer)) app
  | JS.Inherited, Some viewer =>
      App.with_volumeViewer
        (Some (apply3DPreset (mkPreset EmptyString None None None) viewer))
        app
  | _, _ => app
  end.

(** [MedicalImagingApp.setWindowLevel(width, center)] *)
Definition setWindowLevel (width center : R) (app : App.MedicalImagingApp)
  : App.MedicalImagingApp :=
  App.with_volumeViewer
    (option_map (setWindowLevel width center) (App.volumeViewer app)) app.

(** The table [windowPresets] of [setupEventListeners]. *)
Definition windowPresets (preset : string) : option WindowLevel :=
  if String.eqb preset "bone" then Some (mkWindowLevel 2000 300)
  else if String.eqb preset "soft-tissue" then Some (mkWindowLevel 400 50)
  else if String.eqb preset "lung" then Some (mkWindowLevel 1500 (-600))
  else if String.eqb preset "brain" then Some (mkWindowLevel 100 50)
  else if String.eqb preset "liver" then Some (mkWindowLevel 150 30)
  else if String.eqb preset "mediastinum" then Some (mkWindowLevel 350 50)
  else None.

(** The [click] listener of the button [window-<preset>]; a button exists
    for each key of [windowPresets]. *)
Definition onWindowPresetClick (preset : string)
    (app : App.MedicalImagingApp) : App.MedicalImagingApp :=
  match windowPresets preset with
  | Some values =>
      App.showMessage App.success
        ("Applied " ++ preset ++ " window preset")%string
        (setWindowLevel (width values) (center values) app)
  | None => app
  end.

(** [tissue.replace('-', '')]: the first hyphen is dropped. *)
Fixpoint dropFirstHyphen (s : string) : string :=
  match s with
  | EmptyString => EmptyString
  | String c rest =>
      if Ascii.eqb c "-" then rest else String c (dropFirstHyphen rest)
  end.

(** The tissues that have an opacity slider. *)
Definition tissueSliders : list string :=
  ["bone"; "soft-tissue"; "lung"; "vessel"].

(** The [input] listener of the slider [<tissue>-opacity]; [opacity] is
    the parsed slider value. *)
Definition onTissueOpacityInput (tissue : string) (opacity : R)
    (app : App.MedicalImagingApp) : App.MedicalImagingApp :=
  App.with_volumeViewer
    (option_map (setTissueOpacities [(dropFirstHyphen tissue, opacity)])
                (App.volumeViewer app)) app.

End Shell.

(** * Observations and specification-side definitions *)

(** The opacity ramp of the first actor, when there is one. *)
Definition opacityRamp (v : VolumeViewer3D) : option PiecewiseFunction :=
  match viewport v with
  | Some vp =>
      match actors vp with
      | entry :: _ => option_map scalarOpacity (actor entry)
      | [] => None
      end
  | None => None
  end.

Definition cameraOf (v : VolumeViewer3D) : option Camera :=
  option_map camera (viewport v).

Definition propertiesOf (v : VolumeViewer3D) : option ViewportProperties :=
  option_map properties (viewport v).

(** [getWindowLevel] has no [voiRange] to read. *)
Definition voiRangeUnavailable (v : VolumeViewer3D) : Prop :=
  viewport v = None \/
  currentVolumeData v = None \/
  exists vp, viewport v = Some vp /\ voiRange (properties vp) = None.

(** Tool [t] answers gesture [b]: it is active and bound to it. *)
Definition activeFor (b : MouseBinding) (t : Tool) (g : ToolGroup) : bool :=
  match mode (getToolOptions t g) with
  | Active => existsb (MouseBinding_eqb b) (bindings (getToolOptions t g))
  | Passive => false
  end.

(** The name the application's buttons and shortcuts use for a tool. *)
Definition buttonName (t : Tool) : string :=
  match t with
  | TrackballRotateTool => "Rotate"
  | PanTool => "Pan"
  | ZoomTool => "Zoom"
  end.

(** The fixed table of scalar ranges, as the specification lists it. *)
Definition tissueTable : list (string * (R * R)) :=
  [ ("bone", (200, 2000));
    ("softtissue", (-100, 200));
    ("lung", (-1000, -100));
    ("vessel", (100, 400)) ].

Fixpoint lookupRange (tissue : string) (table : list (string * (R * R)))
  : option (R * R) :=
  match table with
  | [] => None
  | (key, range) :: rest =>
      if String.eqb tissue key then Some range else lookupRange tissue rest
  end.

(** The point list the specification describes: per entry whose key is in
    the table, the two boundary values of its range, each with the
    tissue's colour and the requested opacity; nothing for other keys. *)
Definition expectedTissuePoints (tissueOpacities : list (string * R))
  : list TransferFunctionPoint :=
  flat_map
    (fun entry =>
       match lookupRange (fst entry) tissueTable,
             tissueColors (fst entry) with
       | Some (lo, hi), Some color =>
           [ mkTFPoint lo (snd entry) color;
             mkTFPoint hi (snd entry) color ]
       | _, _ => []
       end)
    tissueOpacities.

(** ** Vectors, for the statements about the camera *)

Definition sub3 (a b : Vec3) : Vec3 :=
  let '(a0, a1, a2) := a in
  let '(b0, b1, b2) := b in
  (a0 - b0, a1 - b1, a2 - b2).

Definition dot3 (a b : Vec3) : R :=
  let '(a0, a1, a2) := a in
  let '(b0, b1, b2) := b in
  a0 * b0 + a1 * b1 + a2 * b2.

(** The view direction of a camera, from the focal point to the eye. *)
Definition directionOf (c : Camera) : Vec3 :=
  sub3 (position c) (focalPoint c).

(** The three axes [rotateAroundAxis] accepts, in lower case. *)
Definition isAxis (axis : string) : Prop :=
  axis = "x" \/ axis = "y" \/ axis = "z".

(** The six names [setPresetView] accepts, in lower case. *)
Definition presetViews : list string :=
  ["anterior"; "posterior"; "left"; "right"; "superior"; "inferior"].

Definition centerOf (b : Bounds) : Vec3 :=
  ((bounds0 b + bounds1 b) / 2,
   (bounds2 b + bounds3 b) / 2,
   (bounds4 b + bounds5 b) / 2).

Definition diagonalOf (b : Bounds) : R :=
  sqrt ((bounds1 b - bounds0 b) ^ 2 + (bounds3 b - bounds2 b) ^ 2 +
        (bounds5 b - bounds4 b) ^ 2).

(** ** Shapes of transfer functions, for the statements *)

(** The scalar values of a list of colour stops rise strictly. *)
Fixpoint ascending (xs : list R) : Prop :=
  match xs with
  | [] => True
  | x :: rest =>
      match rest with
      | [] => True
      | y :: _ => x < y /\ ascending rest
      end
  end.

(** The colour stops of the first actor, when there is one. *)
Definition colorStops (v : VolumeViewer3D) : option ColorTransferFunction :=
  match viewport v with
  | Some vp =>
      match actors vp with
      | entry :: _ => option_map rgbTransferFunction (actor entry)
      | [] => None
      end
  | None => None
  end.

(** What [setRGBTransferFunction] makes of one colour point. *)
Definition stopOf (point : ColorPoint) : R * (R * R * R) :=
  let '(r, g, b, _) := cp_color point in (cp_value point, (r, g, b)).

(** A viewer with a volume bound and a volume property to edit. *)
Definition editable (v : VolumeViewer3D) : Prop :=
  currentVolumeData v <> None /\ opacityRamp v <> None.

(** ** The loader's two lists, for the statements *)

(** The images of the files that load, in the order of the files. *)
Definition loadedOf (files : list File) : list LoadedImage :=
  flat_map (fun file =>
              match loadDicomFile file with
              | inr image => [image]
              | inl _ => []
              end) files.

(** The files that do not load, each with its reason, in the order of the
    files. *)
Definition rejectedOf (files : list File) : list (string * string) :=
  flat_map (fun file =>
              match loadDicomFile file with
              | inr _ => []
              | inl message => [(file_name file, message)]
              end) files.

(** The media types [isDicomFile] lets through. *)
Definition validMimeType (type : string) : bool :=
  String.eqb type "application/dicom" ||
  String.eqb type "application/octet-stream" ||
  String.eqb type "".

(** The text [s] holds no character [sep]. *)
Fixpoint freeOf (sep : ascii) (s : string) : bool :=
  match s with
  | EmptyString => true
  | String c rest => negb (Ascii.eqb c sep) && freeOf sep rest
  end.

(** * Sample states *)

Module Sample.

Definition bounds : Bounds := mkBounds 0 100 0 100 0 100.

Definition volume : Volume := mkVolume bounds.

Definition metadata : Metadata := mkMetadata "Unknown" "Unknown" "CT".

Definition camera : Camera :=
  mkCamera (10, 0, 0) (0, 0, 0) (0, 0, 1) false 30 (1, 1000).

(** A ramp and colour stops left by an earlier call. *)
Definition property : VolumeProperty :=
  mkVolumeProperty [(0, 0); (100, 1)] [(0, (0, 0, 0)); (100, (1, 1, 1))].

Definition stalePoint : TransferFunctionPoint :=
  mkTFPoint 200 (1 / 2) (1, 9 / 10, 8 / 10).

Definition viewport : Viewport :=
  mkViewport camera [mkActorEntry (Some property)]
             (mkProperties None (Some (1 / 2)) (Some "CT-Bone") [stalePoint]).

Definition tools : ToolGroup :=
  mkToolGroup (mkToolOptions Active [Primary]) (mkToolOptions Passive [])
              (mkToolOptions Active [Wheel]).

(** A viewer with a two-slice volume on screen. *)
Definition loaded : VolumeViewer3D :=
  mkViewer (Some viewport) (Some tools) true
           (Some (mkVolumeData volume ["slice:0"; "slice:1"] metadata))
           (Some volume) [].

(** The same viewer when the engine reports a value-of-interest range. *)
Definition windowed : VolumeViewer3D :=
  mkViewer
    (Some (mkViewport camera [mkActorEntry (Some property)]
                      (mkProperties (Some (-150, 250)) (Some (1 / 2))
                                    (Some "CT-Bone") [stalePoint])))
    (Some tools) true
    (Some (mkVolumeData volume ["slice:0"; "slice:1"] metadata))
    (Some volume) [].

(** An initialised viewer that has no volume yet. *)
Definition empty : VolumeViewer3D :=
  mkViewer (Some (mkViewport camera [] (mkProperties None None None [])))
           (Some tools) true None None [].

Definition slice (n : string) : File :=
  mkFile (n ++ ".dcm")%string "application/dicom"
         (Decoded ("slice:" ++ n)%string metadata).

End Sample.

(** * Properties *)

(** ** Window level *)

Lemma updateFirstActor_properties f vp :
  properties (updateFirstActor f vp) = properties vp.
Proof.
  unfold updateFirstActor.
  destruct (actors vp) as [|entry others]; [reflexivity|].
  destruct (actor entry); reflexivity.
Qed.

Lemma setWindowLevel_unbound (w c : R) (v : VolumeViewer3D) :
  viewport v = None \/ currentVolumeData v = None ->
  setWindowLevel w c v =
  console_warn "No volume available for window level adjustment" [] v.
Proof.
  unfold setWindowLevel.
  intros [H | H]; rewrite H; [reflexivity|].
  destruct (viewport v); reflexivity.
Qed.

(** The setter leaves the property bag, and with it [voiRange], alone. *)
Lemma setWindowLevel_properties (w c : R) (v : VolumeViewer3D) :
  propertiesOf (setWindowLevel w c v) = propertiesOf v.
Proof.
  unfold setWindowLevel, propertiesOf.
  destruct (viewport v) as [vp|] eqn:Hvp;
    destruct (currentVolumeData v) eqn:Hd; simpl; rewrite ?Hvp; trivial.
  now rewrite updateFirstActor_properties.
Qed.

Lemma setWindowLevel_currentVolumeData (w c : R) (v : VolumeViewer3D) :
  currentVolumeData (setWindowLevel w c v) = currentVolumeData v.
Proof.
  unfold setWindowLevel.
  destruct (viewport v); destruct (currentVolumeData v) eqn:Hd;
    simpl; auto.
Qed.

Lemma getWindowLevel_reads_properties (v v' : VolumeViewer3D) :
  propertiesOf v' = propertiesOf v ->
  currentVolumeData v' = currentVolumeData v ->
  getWindowLevel v' = getWindowLevel v.
Proof.
  unfold getWindowLevel, propertiesOf.
  intros Hp Hd; rewrite Hd.
  destruct (viewport v') as [vp'|], (viewport v) as [vp|];
    simpl in Hp; try discriminate; trivial.
  injection Hp as ->; reflexivity.
Qed.

(** C1, as amended: a call with [width <= 0] is not rejected.  On a
    viewer with a bound volume whose first actor carries a volume
    property it writes no warning, clears the opacity ramp and inserts
    exactly [(center - width/2, 0)] and [(center + width/2, 1)], as it
    does for a positive width; colour stops, property bag, camera, tools
    and console are left as they were. *)
Theorem setWindowLevel_nonpositive_width_applied
    (w c : R) (v : VolumeViewer3D) (vp : Viewport) (data : VolumeData)
    (property : VolumeProperty) (others : list ActorEntry)
    (Hwidth : w <= 0)
    (Hviewport : viewport v = Some vp)
    (Hvolume : currentVolumeData v = Some data)
    (Hactor : actors vp = mkActorEntry (Some property) :: others) :
  setWindowLevel w c v =
  with_viewport
    (Some (with_actors
             (mkActorEntry
                (Some (mkVolumeProperty [(c - w / 2, 0); (c + w / 2, 1)]
                                        (rgbTransferFunction property)))
              :: others) vp)) v /\
  opacityRamp (setWindowLevel w c v) =
    Some [(c - w / 2, 0); (c + w / 2, 1)] /\
  console (setWindowLevel w c v) = console v.
Proof.
  assert (Hset : setWindowLevel w c v =
                 with_viewport
                   (Some (with_actors
                            (mkActorEntry
                               (Some (mkVolumeProperty
                                        [(c - w / 2, 0); (c + w / 2, 1)]
                                        (rgbTransferFunction property)))
                             :: others) vp)) v).
  { unfold setWindowLevel, updateFirstActor.
    rewrite Hviewport, Hvolume, Hactor. reflexivity. }
  split; [exact Hset|].
  rewrite Hset. split; reflexivity.
Qed.

Lemma setWindowLevel_nonpositive_width_applied_witness :
  -10 <= 0 /\
  opacityRamp (setWindowLevel (-10) 50 Sample.loaded) =
    Some [(50 - -10 / 2, 0); (50 + -10 / 2, 1)] /\
  console (setWindowLevel (-10) 50 Sample.loaded) = console Sample.loaded.
Proof.
  split; [lra|].
  apply (setWindowLevel_nonpositive_width_applied
           (-10) 50 Sample.loaded Sample.viewport
           (mkVolumeData Sample.volume ["slice:0"; "slice:1"]
                         Sample.metadata)
           Sample.property []);
    [lra | reflexivity | reflexivity | reflexivity].
Defined.

(** C1, as stated, fails: with [width = -10] the ramp of a loaded viewer
    is replaced and no warning is written. *)
Lemma setWindowLevel_nonpositive_width_changes_ramp :
  -10 <= 0 /\
  opacityRamp (setWindowLevel (-10) 50 Sample.loaded)
    <> opacityRamp Sample.loaded /\
  console (setWindowLevel (-10) 50 Sample.loaded) = [].
Proof.
  split; [lra|]. split; [|reflexivity].
  simpl. intros H. injection H as H _. lra.
Qed.

(** The getter never sees what the setter wrote: the setter edits the
    opacity ramp of the actor, the getter reads [voiRange] from the
    property bag. *)
Lemma getWindowLevel_after_setWindowLevel (w c : R) (v : VolumeViewer3D) :
  getWindowLevel (setWindowLevel w c v) = getWindowLevel v.
Proof.
  apply getWindowLevel_reads_properties.
  - apply setWindowLevel_properties.
  - apply setWindowLevel_currentVolumeData.
Qed.

(** What the getter computes is the inverse of the window-to-range map:
    had the range [(c - w/2, c + w/2)] been stored as [voiRange], the
    getter would return [{w, c}]. *)
Lemma getWindowLevel_of_voiRange (w c : R) (v : VolumeViewer3D)
    (vp : Viewport) (data : VolumeData) :
  viewport v = Some vp ->
  currentVolumeData v = Some data ->
  voiRange (properties vp) = Some (c - w / 2, c + w / 2) ->
  getWindowLevel v = mkWindowLevel w c.
Proof.
  intros Hvp Hdata Hvoi. unfold getWindowLevel.
  rewrite Hvp, Hdata, Hvoi. f_equal; lra.
Qed.

(** C2 at failing inputs: on a loaded viewer, [setWindowLevel(2000, 300)]
    followed by [getWindowLevel()] does not give
    [{width: 2000, center: 300}]; it gives the default
    [{width: 400, center: 50}] when the properties expose no [voiRange],
    and the window of the engine's [voiRange] when they do. *)
Theorem setWindowLevel_getWindowLevel_no_roundtrip :
  0 < 2000 /\
  getWindowLevel (setWindowLevel 2000 300 Sample.loaded)
    = mkWindowLevel 400 50 /\
  getWindowLevel (setWindowLevel 2000 300 Sample.windowed)
    = mkWindowLevel (250 - -150) (-150 + (250 - -150) / 2) /\
  width (getWindowLevel (setWindowLevel 2000 300 Sample.loaded)) <> 2000 /\
  width (getWindowLevel (setWindowLevel 2000 300 Sample.windowed)) <> 2000.
Proof.
  split; [lra|].
  rewrite !getWindowLevel_after_setWindowLevel.
  split; [reflexivity|]. split; [reflexivity|].
  split; simpl; lra.
Qed.

(** C10: when no volume is bound, or the viewport's properties expose no
    [voiRange], [getWindowLevel()] returns the fixed default
    [{width: 400, center: 50}]; a preceding [setWindowLevel] does not
    change that. *)
Theorem getWindowLevel_default (v : VolumeViewer3D)
    (Hunavailable : voiRangeUnavailable v) :
  getWindowLevel v = mkWindowLevel 400 50 /\
  forall w c : R,
    getWindowLevel (setWindowLevel w c v) = mkWindowLevel 400 50.
Proof.
  assert (Hdefault : getWindowLevel v = mkWindowLevel 400 50).
  { unfold getWindowLevel.
    destruct Hunavailable as [H | [H | [vp [Hvp H]]]].
    - rewrite H; reflexivity.
    - rewrite H; destruct (viewport v); reflexivity.
    - rewrite Hvp, H. destruct (currentVolumeData v); reflexivity. }
  split; [exact Hdefault|].
  intros w c. rewrite getWindowLevel_after_setWindowLevel. exact Hdefault.
Qed.

Lemma getWindowLevel_default_witness :
  voiRangeUnavailable Sample.loaded /\
  voiRangeUnavailable Sample.empty /\
  getWindowLevel Sample.empty = mkWindowLevel 400 50 /\
  getWindowLevel (setWindowLevel 2000 300 Sample.loaded)
    = mkWindowLevel 400 50.
Proof.
  assert (H1 : voiRangeUnavailable Sample.loaded).
  { right; right; exists Sample.viewport; split; reflexivity. }
  assert (H2 : voiRangeUnavailable Sample.empty).
  { right; left; reflexivity. }
  split; [exact H1|]. split; [exact H2|]. split.
  - exact (proj1 (getWindowLevel_default Sample.empty H2)).
  - exact (proj2 (getWindowLevel_default Sample.loaded H1) 2000 300).
Defined.

(** ** Presets *)

(** C6: on a viewer with no bound volume [apply3DPreset(p)] only writes
    its warning; the window (opacity ramp), the colour stops, the global
    opacity and every other part of the view state are what they were:
    none of the three steps runs. *)
Theorem apply3DPreset_no_volume (p : Preset) (v : VolumeViewer3D)
    (Hnovolume : currentVolumeData v = None) :
  apply3DPreset p v =
    console_warn "No volume available for preset application" [] v /\
  viewport (apply3DPreset p v) = viewport v /\
  currentVolumeData (apply3DPreset p v) = None.
Proof.
  assert (H : apply3DPreset p v =
              console_warn "No volume available for preset application" [] v).
  { unfold apply3DPreset. rewrite Hnovolume.
    destruct (viewport v); reflexivity. }
  rewrite H. repeat split. exact Hnovolume.
Qed.

Lemma apply3DPreset_no_volume_witness :
  currentVolumeData Sample.empty = None /\
  viewport
    (apply3DPreset
       (mkPreset "CT Bone"
                 (Some [mkColorPoint (-1000) (0, 0, 0, 0);
                        mkColorPoint 2000 (1, 1, 1, 1)])
                 (Some (mkWindowLevel 2000 300)) (Some (7 / 10)))
       Sample.empty)
  = viewport Sample.empty.
Proof.
  split; [reflexivity|].
  exact (proj1 (proj2 (apply3DPreset_no_volume _ Sample.empty eq_refl))).
Defined.

(** ** Tool bindings *)

Lemma primary_filtered_out (bs : list MouseBinding) :
  existsb (MouseBinding_eqb Primary) (filter notPrimary bs) = false.
Proof.
  induction bs as [|[|] bs IH]; simpl; auto.
Qed.

Lemma existsb_addBinding (b b' : MouseBinding) (bs : list MouseBinding) :
  existsb (MouseBinding_eqb b) (addBinding b' bs) =
  MouseBinding_eqb b b' || existsb (MouseBinding_eqb b) bs.
Proof.
  induction bs as [|x bs IH]; simpl.
  - now rewrite orb_false_r.
  - destruct x, b, b'; simpl in *; rewrite ?IH; simpl; auto.
Qed.

Lemma get_own {A : Type} (table : string -> option A) (name : string)
    (value : A) :
  table name = Some value -> JS.get table name = JS.Own value.
Proof. intros H. unfold JS.get. now rewrite H. Qed.

Lemma get_undefined {A : Type} (table : string -> option A)
    (name : string) :
  table name = None -> JS.isInherited name = false ->
  JS.get table name = JS.Undefined.
Proof. intros H Hname. unfold JS.get. now rewrite H, Hname. Qed.

Lemma get_inherited {A : Type} (table : string -> option A)
    (name : string) :
  table name = None -> JS.isInherited name = true ->
  JS.get table name = JS.Inherited.
Proof. intros H Hname. unfold JS.get. now rewrite H, Hname. Qed.

Lemma get_own_inv {A : Type} (table : string -> option A) (name : string)
    (value : A) :
  JS.get table name = JS.Own value -> table name = Some value.
Proof.
  unfold JS.get. destruct (table name); [congruence|].
  destruct (JS.isInherited name); discriminate.
Qed.

Lemma get_undefined_inv {A : Type} (table : string -> option A)
    (name : string) :
  JS.get table name = JS.Undefined ->
  table name = None /\ JS.isInherited name = false.
Proof.
  unfold JS.get. destruct (table name); [discriminate|].
  destruct (JS.isInherited name); [discriminate | auto].
Qed.

Lemma get_inherited_inv {A : Type} (table : string -> option A)
    (name : string) :
  JS.get table name = JS.Inherited ->
  table name = None /\ JS.isInherited name = true.
Proof.
  unfold JS.get. destruct (table name); [discriminate|].
  destruct (JS.isInherited name); [auto | discriminate].
Qed.

Lemma toolMap_toolName (t : Tool) :
  JS.get toolMap (toolName t) = JS.Own t.
Proof. destruct t; reflexivity. Qed.

Lemma viewerToolOf_buttonName (t : Tool) :
  JS.get App.viewerToolOf (buttonName t) = JS.Own (toolName t).
Proof. destruct t; reflexivity. Qed.

(** The bindings an inherited member name leaves behind: the three tools
    are withdrawn from the primary button and none takes it. *)
Lemma setActiveTool_inherited_bindings (name : string)
    (v : VolumeViewer3D) (g : ToolGroup) :
  toolGroup v = Some g ->
  JS.get toolMap name = JS.Inherited ->
  exists g',
    toolGroup (setActiveTool name v) = Some g' /\
    (forall T, activeFor Primary T g' = false) /\
    activeFor Wheel ZoomTool g' = true.
Proof.
  intros Hg Hname. unfold setActiveTool. rewrite Hg, Hname.
  eexists; split; [reflexivity|].
  destruct g as [[mr br] [mp bp] [mz bz]].
  split.
  - intros T; destruct T; unfold activeFor; simpl;
      repeat match goal with
             | |- context [match filter ?f ?l with _ => _ end] =>
                 destruct (filter f l) eqn:?
             end;
      rewrite ?existsb_addBinding, ?primary_filtered_out; simpl;
      try match goal with
          | H : filter _ ?l = _ |- _ =>
              pose proof (primary_filtered_out l) as Hp; rewrite H in Hp;
              simpl in Hp
          end;
      try reflexivity; try congruence.
  - unfold activeFor; simpl; rewrite ?existsb_addBinding; simpl;
      reflexivity.
Qed.

(** The bindings [setActiveTool] leaves behind, tool by tool. *)
Lemma setActiveTool_bindings (X : Tool) (v : VolumeViewer3D)
    (g : ToolGroup) :
  toolGroup v = Some g ->
  exists g',
    toolGroup (setActiveTool (toolName X) v) = Some g' /\
    (forall T, activeFor Primary T g' = true <-> T = X) /\
    activeFor Wheel ZoomTool g' = true.
Proof.
  intros Hg. unfold setActiveTool. rewrite Hg, toolMap_toolName.
  eexists; split; [reflexivity|].
  destruct g as [[mr br] [mp bp] [mz bz]].
  split.
  - intros T; destruct X, T; unfold activeFor; simpl;
      repeat match goal with
             | |- context [match filter ?f ?l with _ => _ end] =>
                 destruct (filter f l) eqn:?
             end;
      rewrite ?existsb_addBinding, ?primary_filtered_out; simpl;
      try match goal with
          | H : filter _ ?l = _ |- _ =>
              pose proof (primary_filtered_out l) as Hp; rewrite H in Hp;
              simpl in Hp
          end;
      split; intros; try reflexivity; try discriminate; try congruence.
  - destruct X; unfold activeFor; simpl;
      rewrite ?existsb_addBinding; simpl; reflexivity.
Qed.

Lemma filter_primary_idempotent (bs : list MouseBinding) :
  filter notPrimary (filter notPrimary bs) = filter notPrimary bs.
Proof.
  induction bs as [|[|] bs IH]; simpl; rewrite ?IH; reflexivity.
Qed.

Lemma filter_addBinding_Primary (bs : list MouseBinding) :
  filter notPrimary (addBinding Primary bs) = filter notPrimary bs.
Proof.
  induction bs as [|[|] bs IH]; simpl; rewrite ?IH; reflexivity.
Qed.

Lemma filter_addBinding_Wheel (bs : list MouseBinding) :
  filter notPrimary (addBinding Wheel bs)
  = addBinding Wheel (filter notPrimary bs).
Proof.
  induction bs as [|[|] bs IH]; simpl; rewrite ?IH; reflexivity.
Qed.

Lemma addBinding_idempotent (b : MouseBinding) (bs : list MouseBinding) :
  addBinding b (addBinding b bs) = addBinding b bs.
Proof.
  induction bs as [|x bs IH]; simpl.
  - destruct b; reflexivity.
  - destruct x, b; simpl; rewrite ?IH; reflexivity.
Qed.

Lemma addBinding_nonempty (b : MouseBinding) (bs : list MouseBinding) :
  addBinding b bs <> [].
Proof.
  destruct bs as [|x bs]; simpl; [discriminate|].
  destruct (MouseBinding_eqb x b); discriminate.
Qed.

(** With the tool group set up, selecting the same tool twice in a row
    changes nothing the second time. *)
Lemma setActiveTool_idempotent (X : Tool) (v : VolumeViewer3D) :
  toolGroup v <> None ->
  setActiveTool (toolName X) (setActiveTool (toolName X) v)
  = setActiveTool (toolName X) v.
Proof.
  intros Hgroup. unfold setActiveTool. rewrite toolMap_toolName.
  destruct v as [vp [g|] i d c k]; simpl; [|now elim Hgroup].
  unfold with_toolGroup; simpl. do 2 f_equal.
  destruct g as [[mr br] [mp bp] [mz bz]].
  destruct X; unfold setToolActive, setToolPassive; simpl;
    rewrite ?filter_addBinding_Primary, ?filter_addBinding_Wheel,
            ?filter_primary_idempotent, ?addBinding_idempotent;
    repeat match goal with
           | |- context [match addBinding ?b ?l with _ => _ end] =>
               let E := fresh in
               destruct (addBinding b l) eqn:E;
               [now apply addBinding_nonempty in E|]
           end;
    reflexivity.
Qed.

(** At the application, a button name that is a member name inherited
    from [Object.prototype] reaches the viewer, which turns the member
    away with its warning and changes no binding. *)
Lemma setActiveTool_button_inherited_name (name : string)
    (app : App.MedicalImagingApp) (v : VolumeViewer3D) (g : ToolGroup) :
  App.viewerToolOf name = None -> JS.isInherited name = true ->
  App.volumeViewer app = Some v -> toolGroup v = Some g ->
  App.setActiveTool name app =
  App.with_volumeViewer (Some (console_warn "Invalid tool name:" [] v)) app.
Proof.
  intros Hname Hmember Hviewer Hgroup. unfold App.setActiveTool.
  rewrite (get_inherited _ _ Hname Hmember), Hviewer. simpl.
  unfold setActiveToolOfMember. now rewrite Hgroup.
Qed.

(** C3: with the tool group set up, selecting a tool [X] of Rotate, Pan
    and Zoom leaves exactly one of the three tools active for the primary
    button, namely [X], and the wheel bound to Zoom; this holds for Zoom
    as for the others.  The application reaches the viewer under the
    button names Rotate, Pan and Zoom.  A name that [toolMap] neither
    holds nor inherits changes no binding and is answered with a warning.
    A name [toolMap] inherits from [Object.prototype], such as
    [constructor], passes the guard: no tool is left active for the
    primary button, and the call is not the warning alone. *)
Theorem setActiveTool_mutual_exclusion (X : Tool) (v : VolumeViewer3D)
    (g : ToolGroup) (Hgroup : toolGroup v = Some g) :
  (exists g',
      toolGroup (setActiveTool (toolName X) v) = Some g' /\
      (forall T, activeFor Primary T g' = true <-> T = X) /\
      activeFor Wheel ZoomTool g' = true) /\
  (forall app,
      App.volumeViewer app = Some v ->
      App.setActiveTool (buttonName X) app =
      App.with_volumeViewer (Some (setActiveTool (toolName X) v)) app) /\
  (forall name,
      toolMap name = None -> JS.isInherited name = false ->
      setActiveTool name v = console_warn "Invalid tool name:" [name] v /\
      toolGroup (setActiveTool name v) = Some g) /\
  (forall name,
      toolMap name = None -> JS.isInherited name = true ->
      (exists g',
          toolGroup (setActiveTool name v) = Some g' /\
          (forall T, activeFor Primary T g' = false) /\
          activeFor Wheel ZoomTool g' = true) /\
      setActiveTool name v <> console_warn "Invalid tool name:" [name] v).
Proof.
  split; [exact (setActiveTool_bindings X v g Hgroup)|]. split; [|split].
  - intros app Hviewer. unfold App.setActiveTool.
    rewrite viewerToolOf_buttonName, Hviewer. reflexivity.
  - intros name Hname Hplain. unfold setActiveTool.
    rewrite Hgroup, (get_undefined _ _ Hname Hplain).
    split; [reflexivity | exact Hgroup].
  - intros name Hname Hmember.
    pose proof (get_inherited _ _ Hname Hmember) as Hget.
    split; [exact (setActiveTool_inherited_bindings name v g Hgroup Hget)|].
    unfold setActiveTool. rewrite Hgroup, Hget.
    intros Heq. apply (f_equal console) in Heq. simpl in Heq.
    rewrite <- (app_nil_r (console v)) in Heq at 1.
    apply app_inv_head in Heq. discriminate.
Qed.

Lemma setActiveTool_mutual_exclusion_witness :
  toolGroup Sample.loaded = Some Sample.tools /\
  toolGroup (setActiveTool "Zoom" Sample.loaded) =
    Some (mkToolGroup (mkToolOptions Passive []) (mkToolOptions Passive [])
                      (mkToolOptions Active [Wheel; Primary])) /\
  toolGroup (setActiveTool "constructor" Sample.loaded) =
    Some (mkToolGroup (mkToolOptions Passive []) (mkToolOptions Passive [])
                      (mkToolOptions Active [Wheel])) /\
  (exists g',
    toolGroup (setActiveTool "Zoom" Sample.loaded) = Some g' /\
    (forall T, activeFor Primary T g' = true <-> T = ZoomTool) /\
    activeFor Wheel ZoomTool g' = true) /\
  (exists g',
    toolGroup (setActiveTool "constructor" Sample.loaded) = Some g' /\
    (forall T, activeFor Primary T g' = false) /\
    activeFor Wheel ZoomTool g' = true).
Proof.
  split; [reflexivity|]. split; [reflexivity|]. split; [reflexivity|].
  pose proof (setActiveTool_mutual_exclusion
                ZoomTool Sample.loaded Sample.tools eq_refl)
    as [Hzoom [_ [_ Hmember]]].
  split; [exact Hzoom|].
  exact (proj1 (Hmember "constructor" eq_refl eq_refl)).
Defined.

(** ** Camera *)

Lemma radians_opp (d : R) : - d * PI / 180 = - (d * PI / 180).
Proof. lra. Qed.


(** C4: with a viewport in place, [rotateAroundAxis(axis, degrees)] for
    [axis] one of x, y, z keeps the focal point (and projection, view
    angle and clipping range) and turns position and view-up in the plane
    of the two other axes by [r = degrees * PI / 180], with
    [dir = position - focal]: the formulas below for z, their analogues
    for x and y, the named axis's own coordinate of position and view-up
    being carried over as it is. *)
Theorem rotateAroundAxis_planar
    (degrees : R) (v : VolumeViewer3D)
    (px py pz fx fy fz ux uy uz : R) (pp : bool) (va : R) (cr : R * R)
    (Hcamera : cameraOf v =
               Some (mkCamera (px, py, pz) (fx, fy, fz) (ux, uy, uz)
                              pp va cr)) :
  let r := degrees * PI / 180 in
  cameraOf (rotateAroundAxis "z" degrees v) =
    Some (mkCamera
            (fx + (px - fx) * cos r - (py - fy) * sin r,
             fy + (px - fx) * sin r + (py - fy) * cos r,
             pz)
            (fx, fy, fz)
            (ux * cos r - uy * sin r,
             ux * sin r + uy * cos r,
             uz)
            pp va cr) /\
  cameraOf (rotateAroundAxis "x" degrees v) =
    Some (mkCamera
            (px,
             fy + (py - fy) * cos r - (pz - fz) * sin r,
             fz + (py - fy) * sin r + (pz - fz) * cos r)
            (fx, fy, fz)
            (ux,
             uy * cos r - uz * sin r,
             uy * sin r + uz * cos r)
            pp va cr) /\
  cameraOf (rotateAroundAxis "y" degrees v) =
    Some (mkCamera
            (fx + (px - fx) * cos r + (pz - fz) * sin r,
             py,
             fz - (px - fx) * sin r + (pz - fz) * cos r)
            (fx, fy, fz)
            (ux * cos r + uz * sin r,
             uy,
             - ux * sin r + uz * cos r)
            pp va cr).
Proof.
  unfold cameraOf in Hcamera.
  destruct (viewport v) as [vp|] eqn:Hvp; [|discriminate].
  simpl in Hcamera. injection Hcamera as Hcam.
  intros r; subst r.
  unfold rotateAroundAxis, cameraOf; rewrite Hvp, Hcam.
  repeat split.
Qed.

Lemma rotateAroundAxis_planar_witness :
  cameraOf Sample.loaded =
    Some (mkCamera (10, 0, 0) (0, 0, 0) (0, 0, 1) false 30 (1, 1000)) /\
  cameraOf (rotateAroundAxis "z" 90 Sample.loaded) =
    Some (mkCamera
            (0 + (10 - 0) * cos (90 * PI / 180)
               - (0 - 0) * sin (90 * PI / 180),
             0 + (10 - 0) * sin (90 * PI / 180)
               + (0 - 0) * cos (90 * PI / 180),
             0)
            (0, 0, 0)
            (0 * cos (90 * PI / 180) - 0 * sin (90 * PI / 180),
             0 * sin (90 * PI / 180) + 0 * cos (90 * PI / 180),
             1)
            false 30 (1, 1000)).
Proof.
  split; [reflexivity|].
  exact (proj1 (rotateAroundAxis_planar 90 Sample.loaded
                  10 0 0 0 0 0 0 0 1 false 30 (1, 1000) eq_refl)).
Defined.

(** Undoing a planar rotation, coordinate by coordinate: with
    [s = sin r], [c = cos r], the angle [-r] has sine [-s] and cosine
    [c]. *)
Ltac undo_rotation :=
  rewrite ?radians_opp, ?cos_neg, ?sin_neg;
  match goal with
  | |- context [cos ?r] =>
      let H := fresh "H" in
      pose proof (sin2_cos2 r) as H; unfold Rsqr in H;
      let sn := fresh "sn" in
      let cs := fresh "cs" in
      set (sn := sin r) in *; set (cs := cos r) in *;
      clearbody sn cs; nsatz
  | |- _ => reflexivity
  end.

Lemma rotateAroundAxis_undo_camera (axis : string) (d : R)
    (p f u : Vec3) (pp : bool) (va : R) (cr : R * R)
    (acts : list ActorEntry) (props : ViewportProperties)
    (g : option ToolGroup) (i : bool) (data : option VolumeData)
    (c : option Volume) (k : list ConsoleEntry) :
  In axis ["x"; "y"; "z"] ->
  let v := mkViewer (Some (mkViewport (mkCamera p f u pp va cr) acts props))
                    g i data c k in
  rotateAroundAxis axis (- d) (rotateAroundAxis axis d v) = v.
Proof.
  destruct p as [[px py] pz], f as [[fx fy] fz], u as [[ux uy] uz].
  intros Haxis v; subst v.
  destruct Haxis as [<- | [<- | [<- | []]]];
    unfold rotateAroundAxis; simpl;
    unfold with_viewport, with_camera; simpl;
    do 2 f_equal; f_equal; f_equal; repeat f_equal; undo_rotation.
Qed.

(** C5: for every axis of x, y, z and every angle [d],
    [rotateAroundAxis(a, d)] followed by [rotateAroundAxis(a, -d)] gives
    back the camera's position and view-up, and with them the whole view
    state; in real arithmetic the inverse is exact. *)
Theorem rotateAroundAxis_inverse (axis : string) (d : R)
    (v : VolumeViewer3D) (Haxis : In axis ["x"; "y"; "z"]) :
  rotateAroundAxis axis (- d) (rotateAroundAxis axis d v) = v /\
  cameraOf (rotateAroundAxis axis (- d) (rotateAroundAxis axis d v))
    = cameraOf v.
Proof.
  assert (H : rotateAroundAxis axis (- d) (rotateAroundAxis axis d v) = v).
  { destruct v as [[vp|] g i data c k]; [|reflexivity].
    destruct vp as [[p f u pp va cr] acts props].
    now apply rotateAroundAxis_undo_camera. }
  now rewrite H.
Qed.

Lemma rotateAroundAxis_inverse_witness :
  In "y" ["x"; "y"; "z"] /\
  cameraOf (rotateAroundAxis "y" (- 15) (rotateAroundAxis "y" 15 Sample.loaded))
    = Some Sample.camera.
Proof.
  assert (H : In "y" ["x"; "y"; "z"]) by (right; left; reflexivity).
  split; [exact H|].
  exact (proj2 (rotateAroundAxis_inverse "y" 15 Sample.loaded H)).
Defined.

Lemma sqrt_30000_bounds : 173.19 < sqrt 30000 < 173.22.
Proof.
  assert (Hpos : 0 <= sqrt 30000) by apply sqrt_pos.
  assert (Hsq : sqrt 30000 * sqrt 30000 = 30000) by (apply sqrt_sqrt; lra).
  split; nra.
Qed.

(** C7: with a viewport and a cached volume, the camera set-up takes
    [center] as the per-axis midpoint of the bounds and [diagonal] as the
    Euclidean length of their extent, and sets focal point [center],
    position [center + diagonal * (0.8, -0.8, 0.8)], view-up [(0, 0, 1)],
    clipping range [(0.01 * diagonal, 100 * diagonal)] and parallel
    projection (view angle 45).  For bounds [(0,0,0)]-[(100,100,100)]
    the focal point is [(50, 50, 50)], the diagonal is 173.2 and the
    position [(50 + 138.6, 50 - 138.6, 50 + 138.6)], to one decimal
    place. *)
Theorem setupInitialCamera_frames_volume
    (v : VolumeViewer3D) (vp : Viewport) (volume : Volume)
    (Hviewport : viewport v = Some vp)
    (Hvolume : cache v = Some volume) :
  let b := imageData_bounds volume in
  let center0 := (bounds0 b + bounds1 b) / 2 in
  let center1 := (bounds2 b + bounds3 b) / 2 in
  let center2 := (bounds4 b + bounds5 b) / 2 in
  let diagonal :=
    sqrt ((bounds1 b - bounds0 b) ^ 2 + (bounds3 b - bounds2 b) ^ 2 +
          (bounds5 b - bounds4 b) ^ 2) in
  cameraOf (setupInitialCamera v) =
    Some (mkCamera
            (center0 + diagonal * 0.8,
             center1 - diagonal * 0.8,
             center2 + diagonal * 0.8)
            (center0, center1, center2)
            (0, 0, 1)
            true 45
            (0.01 * diagonal, 100 * diagonal)) /\
  (b = mkBounds 0 100 0 100 0 100 ->
   (center0, center1, center2) = (50, 50, 50) /\
   Rabs (diagonal - 173.2) < 0.05 /\
   Rabs (center0 + diagonal * 0.8 - (50 + 138.6)) < 0.05 /\
   Rabs (center1 - diagonal * 0.8 - (50 - 138.6)) < 0.05 /\
   Rabs (center2 + diagonal * 0.8 - (50 + 138.6)) < 0.05).
Proof.
  intros b center0 center1 center2 diagonal. split.
  - unfold setupInitialCamera, cameraOf.
    rewrite Hviewport, Hvolume.
    cbn [option_map viewport with_viewport camera with_camera
         parallelProjection viewAngle].
    fold b. fold diagonal. fold center0 center1 center2.
    do 2 f_equal. f_equal; lra.
  - intros Hb.
    assert (Hd : diagonal = sqrt 30000).
    { subst diagonal. rewrite Hb. cbn [bounds0 bounds1 bounds2 bounds3
                                        bounds4 bounds5].
      f_equal. lra. }
    assert (Hc0 : center0 = 50)
      by (subst center0; rewrite Hb; cbn [bounds0 bounds1]; lra).
    assert (Hc1 : center1 = 50)
      by (subst center1; rewrite Hb; cbn [bounds2 bounds3]; lra).
    assert (Hc2 : center2 = 50)
      by (subst center2; rewrite Hb; cbn [bounds4 bounds5]; lra).
    rewrite Hd, Hc0, Hc1, Hc2.
    pose proof sqrt_30000_bounds as [Hlo Hhi].
    split; [reflexivity|].
    repeat split; apply Rabs_def1; lra.
Qed.

(** An explicit reset ends in the same framing, whatever the engine's own
    reset did before. *)
Lemma resetCamera_frames_volume (engineReset : Camera -> Camera)
    (v : VolumeViewer3D) (volume : Volume) :
  viewport v <> None ->
  cache v = Some volume ->
  cameraOf (resetCamera engineReset v) = cameraOf (setupInitialCamera v).
Proof.
  intros Hvp Hcache. unfold resetCamera, setupInitialCamera, cameraOf.
  destruct (viewport v) as [vp|]; [|now elim Hvp].
  simpl. rewrite Hcache. reflexivity.
Qed.

Lemma setupInitialCamera_frames_volume_witness :
  viewport Sample.loaded = Some Sample.viewport /\
  cache Sample.loaded = Some Sample.volume /\
  option_map focalPoint (cameraOf (setupInitialCamera Sample.loaded))
    = Some ((0 + 100) / 2, (0 + 100) / 2, (0 + 100) / 2) /\
  Rabs (sqrt ((100 - 0) ^ 2 + (100 - 0) ^ 2 + (100 - 0) ^ 2) - 173.2) < 0.05.
Proof.
  split; [reflexivity|]. split; [reflexivity|].
  pose proof (setupInitialCamera_frames_volume
                Sample.loaded Sample.viewport Sample.volume
                eq_refl eq_refl) as [Hcamera Hscenario].
  split.
  - rewrite Hcamera. reflexivity.
  - exact (proj1 (proj2 (Hscenario eq_refl))).
Defined.

(** ** Tissue opacities *)

Lemma tissueRanges_table (tissue : string) :
  option_map (fun range => (range_min range, range_max range))
             (tissueRanges tissue)
  = lookupRange tissue tissueTable.
Proof.
  unfold tissueRanges, tissueTable, lookupRange.
  repeat match goal with
         | |- context [String.eqb ?a ?b] => destruct (String.eqb a b)
         end; reflexivity.
Qed.

(** [tissueColors] has the keys of [tissueRanges]. *)
Lemma tissueColors_keys (tissue : string) :
  tissueColors tissue = None <-> tissueRanges tissue = None.
Proof.
  unfold tissueColors, tissueRanges.
  repeat match goal with
         | |- context [String.eqb ?a ?b] => destruct (String.eqb a b)
         end; split; intros H; try discriminate; reflexivity.
Qed.

Lemma keptPoints_Some (points : list TransferFunctionPoint) :
  keptPoints (map Some points) = points.
Proof. induction points as [|p ps IH]; simpl; now rewrite ?IH. Qed.

Lemma tissuePoints_expected (entry : string * R) :
  JS.isInherited (fst entry) = false ->
  tissuePoints entry = map Some (expectedTissuePoints [entry]).
Proof.
  destruct entry as [tissue o]. cbn [fst]. intros Hplain.
  unfold expectedTissuePoints, tissuePoints, getTissueColor, JS.get.
  cbn [flat_map fst snd]. rewrite <- tissueRanges_table, app_nil_r, Hplain.
  pose proof (tissueColors_keys tissue) as Hkeys.
  destruct (tissueRanges tissue) as [[lo hi]|];
    destruct (tissueColors tissue) as [color|].
  - reflexivity.
  - discriminate (proj1 Hkeys eq_refl).
  - discriminate (proj2 Hkeys eq_refl).
  - reflexivity.
Qed.

Lemma built_points_expected (entries : list (string * R))
    (acc : list (option TransferFunctionPoint)) :
  Forall (fun entry => JS.isInherited (fst entry) = false) entries ->
  fold_left (fun points entry => points ++ tissuePoints entry) entries acc
  = acc ++ map Some (expectedTissuePoints entries).
Proof.
  intros Hplain. revert acc.
  induction Hplain as [|entry entries Hentry _ IH]; intros acc.
  - simpl. now rewrite app_nil_r.
  - simpl fold_left.
    rewrite IH, (tissuePoints_expected entry Hentry), <- app_assoc.
    f_equal. rewrite <- map_app. f_equal.
    unfold expectedTissuePoints. cbn [flat_map].
    now rewrite app_nil_r.
Qed.

(** C8, as amended: on a viewer with a bound volume, for a map none of
    whose keys is a member name inherited from [Object.prototype]: when
    at least one key of the map is in the fixed table, the
    transfer-function point list is replaced by the points of the table
    keys present, in the map's order: per key the two boundary values of
    its range, each with the tissue's colour and the requested opacity,
    other keys adding nothing.  When no key of the map is in the table
    the call leaves the point list it found. *)
Theorem setTissueOpacities_points
    (tissueOpacities : list (string * R)) (v : VolumeViewer3D)
    (vp : Viewport) (data : VolumeData)
    (Hviewport : viewport v = Some vp)
    (Hvolume : currentVolumeData v = Some data)
    (Hkeys : Forall (fun entry => JS.isInherited (fst entry) = false)
                    tissueOpacities) :
  (expectedTissuePoints tissueOpacities <> [] ->
   setTissueOpacities tissueOpacities v =
   with_viewport
     (Some (with_properties
              (mkProperties (voiRange (properties vp))
                            (globalOpacityMultiplier (properties vp))
                            (preset (properties vp))
                            (expectedTissuePoints tissueOpacities))
              vp)) v) /\
  (expectedTissuePoints tissueOpacities = [] ->
   setTissueOpacities tissueOpacities v = v).
Proof.
  unfold setTissueOpacities. rewrite Hviewport, Hvolume.
  rewrite (built_points_expected _ _ Hkeys). simpl app.
  destruct (expectedTissuePoints tissueOpacities) as [|pt pts].
  - split; [intros H; now elim H | reflexivity].
  - cbn [map keptPoints]. rewrite keptPoints_Some.
    split; [reflexivity | discriminate].
Qed.

Lemma setTissueOpacities_points_witness :
  viewport Sample.loaded = Some Sample.viewport /\
  option_map transferFunctionPoints
    (propertiesOf (setTissueOpacities [("bone", 7 / 10); ("fat", 1 / 2)]
                                      Sample.loaded))
  = Some [ mkTFPoint 200 (7 / 10) (1, 9 / 10, 8 / 10);
           mkTFPoint 2000 (7 / 10) (1, 9 / 10, 8 / 10) ].
Proof.
  split; [reflexivity|].
  assert (Hkeys : Forall (fun entry => JS.isInherited (fst entry) = false)
                         [("bone", 7 / 10); ("fat", 1 / 2)])
    by (repeat constructor).
  rewrite (proj1 (setTissueOpacities_points
                    [("bone", 7 / 10); ("fat", 1 / 2)]
                    Sample.loaded Sample.viewport
                    (mkVolumeData Sample.volume ["slice:0"; "slice:1"]
                                  Sample.metadata)
                    eq_refl eq_refl Hkeys)).
  - reflexivity.
  - discriminate.
Defined.

(** C8, as stated, fails: a map without a key of the table does not
    rebuild the point list; the points found are still there. *)
Lemma setTissueOpacities_unknown_keys_keep_points :
  expectedTissuePoints [("fat", 1 / 2)] = [] /\
  option_map transferFunctionPoints
    (propertiesOf (setTissueOpacities [("fat", 1 / 2)] Sample.loaded))
  = Some [Sample.stalePoint] /\
  option_map transferFunctionPoints
    (propertiesOf (setTissueOpacities [("fat", 1 / 2)] Sample.loaded))
  <> Some (expectedTissuePoints [("fat", 1 / 2)]).
Proof.
  split; [reflexivity|]. split; [reflexivity|]. discriminate.
Qed.

(** A key that is a member name inherited from [Object.prototype] is
    not ignored: the guard on [range] is passed, two points are pushed and
    the list is replaced, so the points found are not kept. *)
Lemma setTissueOpacities_inherited_key_replaces_points :
  expectedTissuePoints [("constructor", 1 / 2)] = [] /\
  option_map transferFunctionPoints (propertiesOf Sample.loaded)
  = Some [Sample.stalePoint] /\
  option_map transferFunctionPoints
    (propertiesOf (setTissueOpacities [("constructor", 1 / 2)]
                                      Sample.loaded))
  <> Some [Sample.stalePoint].
Proof.
  split; [reflexivity|]. split; [reflexivity|]. discriminate.
Qed.

(** ** Volume lifecycle *)

Lemma setActiveTool_keeps_volume (name : string) (v : VolumeViewer3D) :
  viewport (setActiveTool name v) = viewport v /\
  currentVolumeData (setActiveTool name v) = currentVolumeData v.
Proof.
  unfold setActiveTool.
  destruct (toolGroup v); [destruct (JS.get toolMap name)|];
    split; reflexivity.
Qed.

Lemma setupInitialCamera_keeps_volume (v : VolumeViewer3D) :
  currentVolumeData (setupInitialCamera v) = currentVolumeData v /\
  (viewport v <> None -> viewport (setupInitialCamera v) <> None).
Proof.
  unfold setupInitialCamera.
  destruct (viewport v) as [vp|]; split; try reflexivity; auto.
  intros _; discriminate.
Qed.

(** A successful attach leaves the volume bound with the slices given. *)
Lemma displayVolume_attached (volume : Volume) (acts : list ActorEntry)
    (imageIds : list string) (metadata : Metadata) (v : VolumeViewer3D) :
  isInitialized v = true ->
  viewport v <> None ->
  exists v',
    displayVolume (Attached volume acts) imageIds metadata v = Return v' /\
    viewport v' <> None /\
    currentVolumeData v' = Some (mkVolumeData volume imageIds metadata).
Proof.
  intros Hinit Hvp. unfold displayVolume. rewrite Hinit. simpl.
  destruct (viewport v) as [vp|] eqn:E; [|now elim Hvp].
  eexists; split; [reflexivity|].
  split.
  - apply setupInitialCamera_keeps_volume. discriminate.
  - now rewrite (proj1 (setupInitialCamera_keeps_volume _)).
Qed.






(** The upload handler turns away fewer than two files with a message
    and does not reach the viewer. *)
Lemma handleFileUpload_too_few_files (engine : EngineOutcome)
    (files : list File) (app : App.MedicalImagingApp) :
  (List.length files < 2)%nat ->
  App.handleFileUpload engine (Some files) app =
  App.showMessage App.error
    "Please upload at least 2 DICOM files from the same series." app.
Proof.
  intros H. apply Nat.ltb_lt in H. unfold App.handleFileUpload.
  now rewrite H.
Qed.

(** The loader keeps every file it is given on exactly one of its two
    lists. *)
Lemma loadMultipleDicomFiles_total (files : list File) :
  (List.length (successful (loadMultipleDicomFiles files)) +
   List.length (failed (loadMultipleDicomFiles files)) =
   List.length files)%nat /\
  total (loadMultipleDicomFiles files) = List.length files.
Proof.
  unfold loadMultipleDicomFiles.
  assert (H : forall (rs : list (File * (string + LoadedImage))) acc,
             let out :=
               fold_left
                 (fun acc result =>
                    match snd result with
                    | inr value =>
                        mkLoadResults (successful acc ++ [value])
                                      (failed acc) (total acc)
                    | inl message =>
                        mkLoadResults
                          (successful acc)
                          (failed acc ++ [(file_name (fst result), message)])
                          (total acc)
                    end) rs acc in
             (List.length (successful out) + List.length (failed out) =
              List.length (successful acc) + List.length (failed acc) +
              List.length rs)%nat /\
             total out = total acc).
  { induction rs as [|r rs IH]; intros acc; simpl.
    - split; [lia | reflexivity].
    - destruct (IH (match snd r with
                    | inr value =>
                        mkLoadResults (successful acc ++ [value])
                                      (failed acc) (total acc)
                    | inl message =>
                        mkLoadResults
                          (successful acc)
                          (failed acc ++ [(file_name (fst r), message)])
                          (total acc)
                    end)) as [IH1 IH2].
      rewrite IH1, IH2.
      destruct (snd r); simpl; rewrite length_app; simpl; split; lia. }
  destruct (H (map (fun file => (file, loadDicomFile file)) files)
              (mkLoadResults [] [] (List.length files))) as [H1 H2].
  rewrite length_map in H1. simpl in H1, H2. split; assumption.
Qed.

(** The tool group starts with Rotate on the primary button, Zoom on the
    wheel and Pan passive. *)
Lemma setupToolGroup_initial (v : VolumeViewer3D) :
  toolGroup (setupToolGroup v) =
  Some (mkToolGroup (mkToolOptions Active [Primary])
                    (mkToolOptions Passive [])
                    (mkToolOptions Active [Wheel])).
Proof. reflexivity. Qed.

(** * Further properties *)

(** ** Camera motion *)

(** X1: a rotation about x, y or z is rigid.  It keeps the focal point,
    the projection, the view angle and the clipping range, and it keeps
    the distance of the eye from the focal point, the length of view-up
    and the angle between the two (their dot products). *)
Theorem rotateAroundAxis_rigid (axis : string) (d : R)
    (v : VolumeViewer3D) (c : Camera)
    (Haxis : isAxis axis)
    (Hcamera : cameraOf v = Some c) :
  exists c',
    cameraOf (rotateAroundAxis axis d v) = Some c' /\
    focalPoint c' = focalPoint c /\
    parallelProjection c' = parallelProjection c /\
    viewAngle c' = viewAngle c /\
    clippingRange c' = clippingRange c /\
    dot3 (directionOf c') (directionOf c') =
      dot3 (directionOf c) (directionOf c) /\
    dot3 (viewUp c') (viewUp c') = dot3 (viewUp c) (viewUp c) /\
    dot3 (directionOf c') (viewUp c') = dot3 (directionOf c) (viewUp c).
Proof.
  rename Hcamera into Hc. unfold cameraOf in Hc.
  destruct (viewport v) as [vp|] eqn:Hvp; [|discriminate].
  simpl in Hc. injection Hc as Hc.
  destruct c as [[[px py] pz] [[fx fy] fz] [[ux uy] uz] pp va cr].
  destruct Haxis as [-> | [-> | ->]];
    unfold rotateAroundAxis, cameraOf; rewrite Hvp, Hc;
    (eexists; split; [reflexivity|]);
    cbn [focalPoint parallelProjection viewAngle clippingRange
         position viewUp directionOf sub3 dot3 camera with_camera];
    repeat split;
    pose proof (sin2_cos2 (d * PI / 180)) as Hsc; unfold Rsqr in Hsc;
    set (sn := sin (d * PI / 180)) in *;
    set (cs := cos (d * PI / 180)) in *;
    clearbody sn cs; nsatz.
Qed.

Lemma rotateAroundAxis_rigid_witness :
  isAxis "y" /\
  exists c',
    cameraOf (rotateAroundAxis "y" 15 Sample.loaded) = Some c' /\
    focalPoint c' = (0, 0, 0) /\
    dot3 (directionOf c') (directionOf c') = 10 * 10 + 0 * 0 + 0 * 0.
Proof.
  assert (Haxis : isAxis "y") by (right; left; reflexivity).
  split; [exact Haxis|].
  destruct (rotateAroundAxis_rigid "y" 15 Sample.loaded Sample.camera
              Haxis eq_refl)
    as [c' [Hc' [Hf [_ [_ [_ [Hd _]]]]]]].
  exists c'. split; [exact Hc'|]. split; [exact Hf|].
  rewrite Hd. unfold directionOf, Sample.camera, sub3, dot3; simpl. lra.
Defined.

(** Take an equation between states apart, down to its numbers. *)
Ltac split_fields :=
  repeat match goal with
         | |- @eq ?T _ _ =>
             lazymatch T with
             | R => fail
             | _ => f_equal
             end
         end.

(** Turning by an angle whose cosine is 1 and whose sine is 0 moves
    nothing. *)
Lemma rotateAroundAxis_trivial_angle (axis : string) (d : R)
    (v : VolumeViewer3D) :
  isAxis axis ->
  cos (d * PI / 180) = 1 ->
  sin (d * PI / 180) = 0 ->
  rotateAroundAxis axis d v = v.
Proof.
  intros Haxis Hcos Hsin.
  destruct v as [[vp|] g i data c k]; [|reflexivity].
  destruct vp as [[[[px py] pz] [[fx fy] fz] [[ux uy] uz] pp va cr] acts props].
  destruct Haxis as [-> | [-> | ->]];
    unfold rotateAroundAxis; simpl; rewrite Hcos, Hsin;
    unfold with_viewport, with_camera; simpl;
    split_fields; ring.
Qed.

Lemma radians_plus (d1 d2 : R) :
  (d1 + d2) * PI / 180 = d1 * PI / 180 + d2 * PI / 180.
Proof. lra. Qed.

(** Two turns about one axis are the turn by the sum of the angles. *)
Lemma rotateAroundAxis_sum (axis : string) (d1 d2 : R)
    (v : VolumeViewer3D) :
  isAxis axis ->
  rotateAroundAxis axis d2 (rotateAroundAxis axis d1 v)
  = rotateAroundAxis axis (d1 + d2) v.
Proof.
  intros Haxis.
  destruct v as [[vp|] g i data c k]; [|reflexivity].
  destruct vp as [[[[px py] pz] [[fx fy] fz] [[ux uy] uz] pp va cr] acts props].
  destruct Haxis as [-> | [-> | ->]];
    unfold rotateAroundAxis; simpl;
    unfold with_viewport, with_camera; simpl;
    rewrite radians_plus, cos_plus, sin_plus;
    split_fields; ring.
Qed.

(** X2: rotations about one axis add up and commute: turning by [d1] and
    then by [d2] about the same axis is turning by [d1 + d2], and is
    turning by [d2] and then by [d1]. *)
Theorem rotateAroundAxis_additive (axis : string) (d1 d2 : R)
    (v : VolumeViewer3D) (Haxis : isAxis axis) :
  rotateAroundAxis axis d2 (rotateAroundAxis axis d1 v)
    = rotateAroundAxis axis (d1 + d2) v /\
  rotateAroundAxis axis d2 (rotateAroundAxis axis d1 v)
    = rotateAroundAxis axis d1 (rotateAroundAxis axis d2 v).
Proof.
  split.
  - now apply rotateAroundAxis_sum.
  - rewrite !rotateAroundAxis_sum by exact Haxis.
    f_equal. apply Rplus_comm.
Qed.

Lemma rotateAroundAxis_additive_witness :
  isAxis "z" /\
  rotateAroundAxis "z" 30 (rotateAroundAxis "z" 15 Sample.loaded)
  = rotateAroundAxis "z" (15 + 30) Sample.loaded.
Proof.
  assert (Haxis : isAxis "z") by (right; right; reflexivity).
  split; [exact Haxis|].
  exact (proj1 (rotateAroundAxis_additive "z" 15 30 Sample.loaded Haxis)).
Defined.

Lemma rotateAroundAxis_iter (axis : string) (d : R) (n : nat)
    (v : VolumeViewer3D) :
  isAxis axis ->
  Nat.iter n (rotateAroundAxis axis d) v
  = rotateAroundAxis axis (INR n * d) v.
Proof.
  intros Haxis. induction n as [|n IH].
  - simpl Nat.iter. symmetry.
    apply rotateAroundAxis_trivial_angle; [exact Haxis| |].
    + replace (INR 0 * d * PI / 180) with 0 by (simpl; lra). apply cos_0.
    + replace (INR 0 * d * PI / 180) with 0 by (simpl; lra). apply sin_0.
  - simpl Nat.iter. rewrite IH, rotateAroundAxis_sum by exact Haxis.
    f_equal. rewrite S_INR. ring.
Qed.

(** X3: the rotate buttons turn by 15 degrees a press; twenty-four
    presses of one button are a full turn and give the view state back. *)
Theorem rotateAroundAxis_full_turn (axis : string) (v : VolumeViewer3D)
    (Haxis : isAxis axis) :
  Nat.iter 24 (rotateAroundAxis axis 15) v = v /\
  Nat.iter 24 (rotateAroundAxis axis (- 15)) v = v /\
  rotateAroundAxis axis 360 v = v.
Proof.
  assert (Hturn : forall d, d * PI / 180 = 2 * PI \/ d * PI / 180 = - (2 * PI)
                            -> rotateAroundAxis axis d v = v).
  { intros d Hd. apply rotateAroundAxis_trivial_angle; [exact Haxis| |];
      destruct Hd as [-> | ->];
      rewrite ?cos_neg, ?sin_neg, ?cos_2PI, ?sin_2PI; lra. }
  repeat split.
  - rewrite rotateAroundAxis_iter by exact Haxis.
    apply Hturn. left. simpl INR. lra.
  - rewrite rotateAroundAxis_iter by exact Haxis.
    apply Hturn. right. simpl INR. lra.
  - apply Hturn. left. lra.
Qed.

Lemma rotateAroundAxis_full_turn_witness :
  isAxis "x" /\
  Nat.iter 24 (rotateAroundAxis "x" 15) Sample.loaded = Sample.loaded.
Proof.
  assert (Haxis : isAxis "x") by (left; reflexivity).
  split; [exact Haxis|].
  exact (proj1 (rotateAroundAxis_full_turn "x" Sample.loaded Haxis)).
Defined.

(** X4: axis names are read without regard to case, and anything else is
    turned away: an axis that is not x, y or z in lower case leaves the
    view state as it is and adds one console entry, the invalid-axis
    warning, or an error for the letter o, whose stray case fails. *)
Theorem rotateAroundAxis_axis_names (axis : string) (d : R)
    (v : VolumeViewer3D) (vp : Viewport)
    (Hviewport : viewport v = Some vp) :
  (isAxis (JS.toLowerCase axis) ->
   rotateAroundAxis axis d v = rotateAroundAxis (JS.toLowerCase axis) d v) /\
  (~ isAxis (JS.toLowerCase axis) ->
   rotateAroundAxis axis d v =
   if String.eqb (JS.toLowerCase axis) "o"
   then console_error "Error applying manual rotation:" [] v
   else console_warn "Invalid rotation axis:" [axis] v).
Proof.
  split.
  - intros Haxis. unfold rotateAroundAxis. rewrite Hviewport.
    destruct Haxis as [H | [H | H]]; rewrite H; reflexivity.
  - intros Hinvalid. unfold rotateAroundAxis. rewrite Hviewport.
    destruct (position (camera vp)) as [[px py] pz].
    destruct (focalPoint (camera vp)) as [[fx fy] fz].
    destruct (viewUp (camera vp)) as [[ux uy] uz].
    destruct (String.eqb_spec (JS.toLowerCase axis) "x") as [E|_];
      [elim Hinvalid; left; exact E|].
    destruct (String.eqb_spec (JS.toLowerCase axis) "y") as [E|_];
      [elim Hinvalid; right; left; exact E|].
    destruct (String.eqb_spec (JS.toLowerCase axis) "z") as [E|_];
      [elim Hinvalid; right; right; exact E|].
    reflexivity.
Qed.

Lemma rotateAroundAxis_axis_names_witness :
  viewport Sample.loaded = Some Sample.viewport /\
  rotateAroundAxis "Z" 15 Sample.loaded
    = rotateAroundAxis "z" 15 Sample.loaded /\
  rotateAroundAxis "o" 15 Sample.loaded
    = console_error "Error applying manual rotation:" [] Sample.loaded /\
  rotateAroundAxis "w" 15 Sample.loaded
    = console_warn "Invalid rotation axis:" ["w"] Sample.loaded.
Proof.
  split; [reflexivity|]. split; [|split].
  - apply (proj1 (rotateAroundAxis_axis_names "Z" 15 Sample.loaded
                    Sample.viewport eq_refl)).
    right; right; reflexivity.
  - apply (proj2 (rotateAroundAxis_axis_names "o" 15 Sample.loaded
                    Sample.viewport eq_refl)).
    intros [H | [H | H]]; discriminate H.
  - apply (proj2 (rotateAroundAxis_axis_names "w" 15 Sample.loaded
                    Sample.viewport eq_refl)).
    intros [H | [H | H]]; discriminate H.
Defined.

Lemma diagonalOf_square (b : Bounds) :
  diagonalOf b * diagonalOf b =
  (bounds1 b - bounds0 b) ^ 2 + (bounds3 b - bounds2 b) ^ 2 +
  (bounds5 b - bounds4 b) ^ 2.
Proof.
  unfold diagonalOf. apply sqrt_sqrt.
  assert (H : forall x : R, 0 <= x ^ 2) by (intros x; nra).
  pose proof (H (bounds1 b - bounds0 b)).
  pose proof (H (bounds3 b - bounds2 b)).
  pose proof (H (bounds5 b - bounds4 b)). lra.
Qed.

(** X5: each of the six preset views (in any case) looks at the centre of
    the volume from the distance of its diagonal, with a view-up of
    length one at a right angle to the view direction; projection, view
    angle, clipping range and console are left alone. *)
Theorem setPresetView_geometry (view : string) (v : VolumeViewer3D)
    (vp : Viewport) (volume : Volume)
    (Hviewport : viewport v = Some vp)
    (Hvolume : cache v = Some volume)
    (Hview : In (JS.toLowerCase view) presetViews) :
  exists c',
    cameraOf (setPresetView view v) = Some c' /\
    focalPoint c' = centerOf (imageData_bounds volume) /\
    dot3 (directionOf c') (directionOf c') =
      diagonalOf (imageData_bounds volume) *
      diagonalOf (imageData_bounds volume) /\
    dot3 (directionOf c') (viewUp c') = 0 /\
    dot3 (viewUp c') (viewUp c') = 1 /\
    parallelProjection c' = parallelProjection (camera vp) /\
    viewAngle c' = viewAngle (camera vp) /\
    clippingRange c' = clippingRange (camera vp) /\
    console (setPresetView view v) = console v.
Proof.
  unfold setPresetView. rewrite Hviewport, Hvolume.
  fold (diagonalOf (imageData_bounds volume)).
  set (dg := diagonalOf (imageData_bounds volume)).
  unfold presetViews in Hview.
  destruct Hview as [H | [H | [H | [H | [H | [H | []]]]]]];
    rewrite <- H; cbn [String.eqb Ascii.eqb Bool.eqb];
    (eexists; split; [reflexivity|]);
    cbn [focalPoint parallelProjection viewAngle clippingRange position
         viewUp directionOf sub3 dot3 camera with_camera console
         with_viewport centerOf];
    repeat split; ring.
Qed.

Lemma setPresetView_geometry_witness :
  In (JS.toLowerCase "Superior") presetViews /\
  exists c',
    cameraOf (setPresetView "Superior" Sample.loaded) = Some c' /\
    focalPoint c' = centerOf Sample.bounds /\
    dot3 (directionOf c') (viewUp c') = 0.
Proof.
  assert (Hview : In (JS.toLowerCase "Superior") presetViews).
  { simpl. do 4 right. left. reflexivity. }
  split; [exact Hview|].
  destruct (setPresetView_geometry "Superior" Sample.loaded Sample.viewport
              Sample.volume eq_refl eq_refl Hview)
    as [c' [Hc' [Hf [_ [Hup _]]]]].
  exists c'. repeat split; assumption.
Defined.

Lemma diagonalOf_positive (b : Bounds) :
  bounds1 b <> bounds0 b \/ bounds3 b <> bounds2 b \/ bounds5 b <> bounds4 b ->
  0 < diagonalOf b.
Proof.
  intros Hextent. unfold diagonalOf. apply sqrt_lt_R0.
  assert (Hsq : forall x : R, 0 <= x ^ 2) by (intros x; nra).
  assert (Hpos : forall x : R, x <> 0 -> 0 < x ^ 2).
  { intros x Hx. destruct (Rtotal_order x 0) as [H | [H | H]]; nra. }
  pose proof (Hsq (bounds1 b - bounds0 b)).
  pose proof (Hsq (bounds3 b - bounds2 b)).
  pose proof (Hsq (bounds5 b - bounds4 b)).
  destruct Hextent as [H' | [H' | H']].
  - pose proof (Hpos (bounds1 b - bounds0 b)). lra.
  - pose proof (Hpos (bounds3 b - bounds2 b)). lra.
  - pose proof (Hpos (bounds5 b - bounds4 b)). lra.
Qed.

Lemma diagonalOf_degenerate (b : Bounds) :
  bounds1 b = bounds0 b -> bounds3 b = bounds2 b -> bounds5 b = bounds4 b ->
  diagonalOf b = 0.
Proof.
  intros H1 H2 H3. unfold diagonalOf. rewrite H1, H2, H3.
  replace ((bounds0 b - bounds0 b) ^ 2 + (bounds2 b - bounds2 b) ^ 2 +
           (bounds4 b - bounds4 b) ^ 2) with 0 by ring.
  apply sqrt_0.
Qed.

Lemma setupInitialCamera_camera (v : VolumeViewer3D) (vp : Viewport)
    (volume : Volume) :
  viewport v = Some vp ->
  cache v = Some volume ->
  cameraOf (setupInitialCamera v) =
  Some (mkCamera
          (sub3 (centerOf (imageData_bounds volume))
                (- (diagonalOf (imageData_bounds volume) * (8 / 10)),
                 diagonalOf (imageData_bounds volume) * (8 / 10),
                 - (diagonalOf (imageData_bounds volume) * (8 / 10))))
          (centerOf (imageData_bounds volume))
          (0, 0, 1) true 45
          (diagonalOf (imageData_bounds volume) * (1 / 100),
           diagonalOf (imageData_bounds volume) * 100)).
Proof.
  intros Hvp Hcache. unfold setupInitialCamera, cameraOf.
  rewrite Hvp, Hcache.
  cbn [option_map viewport with_viewport camera with_camera
       parallelProjection viewAngle centerOf sub3].
  fold (diagonalOf (imageData_bounds volume)).
  split_fields; ring.
Qed.

(** X6: the initial framing keeps the eye off the focal point exactly
    when the volume has some extent.  If the bounds differ along at least
    one axis, position and focal point differ, the eye is at
    [0.8 * sqrt 3] diagonals from the centre, and the clipping range is
    [0 < near < far]; if the bounds are a single point, the eye sits on
    the focal point and the clipping range is [(0, 0)]. *)
Theorem setupInitialCamera_eye_off_focus (v : VolumeViewer3D)
    (vp : Viewport) (volume : Volume)
    (Hviewport : viewport v = Some vp)
    (Hvolume : cache v = Some volume) :
  let b := imageData_bounds volume in
  exists c',
    cameraOf (setupInitialCamera v) = Some c' /\
    (bounds1 b <> bounds0 b \/ bounds3 b <> bounds2 b \/
     bounds5 b <> bounds4 b ->
     position c' <> focalPoint c' /\
     dot3 (directionOf c') (directionOf c') =
       192 / 100 * (diagonalOf b * diagonalOf b) /\
     0 < fst (clippingRange c') < snd (clippingRange c')) /\
    (bounds1 b = bounds0 b /\ bounds3 b = bounds2 b /\
     bounds5 b = bounds4 b ->
     position c' = focalPoint c' /\ clippingRange c' = (0, 0)).
Proof.
  intros b. eexists. split.
  - apply (setupInitialCamera_camera v vp volume Hviewport Hvolume).
  - fold b. destruct (centerOf b) as [[c0 c1] c2] eqn:Hcenter.
    cbn [position focalPoint clippingRange directionOf sub3 dot3 fst snd].
    split.
    + intros Hextent. pose proof (diagonalOf_positive b Hextent) as Hd.
      split; [|split; [field | lra]].
      intros Heq. injection Heq as H0 _ _. lra.
    + intros [H1 [H2 H3]].
      rewrite (diagonalOf_degenerate b H1 H2 H3).
      split; [f_equal; [f_equal|]; ring | f_equal; ring].
Qed.

Lemma setupInitialCamera_eye_off_focus_witness :
  exists c',
    cameraOf (setupInitialCamera Sample.loaded) = Some c' /\
    position c' <> focalPoint c'.
Proof.
  destruct (setupInitialCamera_eye_off_focus Sample.loaded Sample.viewport
              Sample.volume eq_refl eq_refl) as [c' [Hc' [Hextent _]]].
  exists c'. split; [exact Hc'|].
  apply Hextent. left. simpl. lra.
Defined.

Lemma setupInitialCamera_forgets_camera (v w : VolumeViewer3D) :
  viewport v <> None ->
  viewport w <> None ->
  cache v <> None ->
  cache w = cache v ->
  cameraOf (setupInitialCamera w) = cameraOf (setupInitialCamera v).
Proof.
  intros Hv Hw Hc Hcw.
  destruct (viewport v) as [vp|] eqn:Evp; [|now elim Hv].
  destruct (viewport w) as [wp|] eqn:Ewp; [|now elim Hw].
  destruct (cache v) as [volume|] eqn:Ec; [|now elim Hc].
  rewrite (setupInitialCamera_camera v vp volume Evp Ec).
  rewrite (setupInitialCamera_camera w wp volume Ewp Hcw).
  reflexivity.
Qed.

Lemma rotateAroundAxis_keeps_volume (axis : string) (d : R)
    (v : VolumeViewer3D) :
  cache (rotateAroundAxis axis d v) = cache v /\
  (viewport v <> None -> viewport (rotateAroundAxis axis d v) <> None).
Proof.
  unfold rotateAroundAxis.
  destruct (viewport v) as [vp|] eqn:Evp; [|split; [reflexivity|auto]].
  destruct (position (camera vp)) as [[px py] pz].
  destruct (focalPoint (camera vp)) as [[fx fy] fz].
  destruct (viewUp (camera vp)) as [[ux uy] uz].
  repeat match goal with
         | |- context [String.eqb ?a ?b] => destruct (String.eqb a b)
         end; simpl; rewrite ?Evp; split; try reflexivity;
    intros _; discriminate.
Qed.

Lemma setPresetView_keeps_volume (view : string) (v : VolumeViewer3D) :
  cache (setPresetView view v) = cache v /\
  (viewport v <> None -> viewport (setPresetView view v) <> None).
Proof.
  unfold setPresetView.
  destruct (viewport v) as [vp|] eqn:Evp; [|split; [reflexivity|auto]].
  destruct (cache v) as [volume|] eqn:Ec;
    [|rewrite Evp; split; [exact Ec | intros _; discriminate]].
  repeat match goal with
         | |- context [String.eqb ?a ?b] => destruct (String.eqb a b)
         end; simpl; rewrite ?Evp, ?Ec; split; try reflexivity;
    intros _; discriminate.
Qed.

(** X7: a camera reset undoes any camera motion.  With a volume on
    screen, resetting after a rotation about any axis name, or after any
    preset view, gives the camera a reset of the untouched viewer gives,
    whatever the engine's own reset does before. *)
Theorem resetCamera_forgets_motion (engineReset : Camera -> Camera)
    (axis view : string) (d : R) (v : VolumeViewer3D)
    (Hviewport : viewport v <> None)
    (Hvolume : cache v <> None) :
  cameraOf (resetCamera engineReset (rotateAroundAxis axis d v))
    = cameraOf (resetCamera engineReset v) /\
  cameraOf (resetCamera engineReset (setPresetView view v))
    = cameraOf (resetCamera engineReset v).
Proof.
  assert (Hreset : forall w, viewport w <> None -> cache w = cache v ->
                     cameraOf (resetCamera engineReset w)
                     = cameraOf (setupInitialCamera v)).
  { intros w Hw Hcw. unfold resetCamera.
    destruct (viewport w) as [wp|] eqn:Ewp; [|now elim Hw].
    apply setupInitialCamera_forgets_camera; try assumption.
    simpl. discriminate. }
  rewrite (Hreset v Hviewport eq_refl). split.
  - apply Hreset; now apply rotateAroundAxis_keeps_volume.
  - apply Hreset; now apply setPresetView_keeps_volume.
Qed.

Lemma resetCamera_forgets_motion_witness :
  cameraOf (resetCamera (fun c => c) (rotateAroundAxis "x" 40 Sample.loaded))
    = cameraOf (resetCamera (fun c => c) Sample.loaded).
Proof.
  apply (proj1 (resetCamera_forgets_motion (fun c => c) "x" "left" 40
                  Sample.loaded ltac:(discriminate) ltac:(discriminate))).
Defined.

(** ** Transfer functions *)

Lemma addRGBPoints_map (colorPoints : list ColorPoint)
    (f : ColorTransferFunction) :
  fold_left
    (fun f point =>
       let '(r, g, b, _) := cp_color point in
       addRGBPoint (cp_value point) r g b f)
    colorPoints f
  = f ++ map stopOf colorPoints.
Proof.
  revert f. induction colorPoints as [|point rest IH]; intros f.
  - simpl. now rewrite app_nil_r.
  - assert (Hstep : (let '(r, g, b, _) := cp_color point in
                     addRGBPoint (cp_value point) r g b f)
                    = f ++ [stopOf point]).
    { unfold stopOf, addRGBPoint.
      destruct (cp_color point) as [[[r g] b] a]. reflexivity. }
    simpl fold_left. rewrite IH, Hstep, <- app_assoc. reflexivity.
Qed.

(** A viewer that can be edited, taken apart. *)
Lemma editable_inv (v : VolumeViewer3D) :
  editable v ->
  exists cam property others props g i data c k,
    v = mkViewer
          (Some (mkViewport cam (mkActorEntry (Some property) :: others)
                            props))
          g i (Some data) c k.
Proof.
  intros [Hdata Hramp]. unfold opacityRamp in Hramp.
  destruct v as [[[cam acts props]|] g i [data|] c k]; simpl in *;
    try (now elim Hdata); try (now elim Hramp).
  destruct acts as [|[[property|]] others]; simpl in Hramp;
    try (now elim Hramp).
  now exists cam, property, others, props, g, i, data, c, k.
Qed.

(** X8: on a viewer with a bound volume and a volume property,
    [setRGBTransferFunction] replaces the colour stops by the points
    given, in the order given and without the alpha channel; nothing of
    the old stops is kept, and the opacity ramp, the property bag and the
    console are not touched. *)
Theorem setRGBTransferFunction_replaces (colorPoints : list ColorPoint)
    (v : VolumeViewer3D) (Heditable : editable v) :
  colorStops (setRGBTransferFunction colorPoints v)
    = Some (map stopOf colorPoints) /\
  opacityRamp (setRGBTransferFunction colorPoints v) = opacityRamp v /\
  propertiesOf (setRGBTransferFunction colorPoints v) = propertiesOf v /\
  console (setRGBTransferFunction colorPoints v) = console v.
Proof.
  destruct (editable_inv v Heditable)
    as (cam & property & others & props & g & i & data & c & k & ->).
  unfold setRGBTransferFunction, updateFirstActor, colorStops, opacityRamp,
    propertiesOf.
  cbn [viewport currentVolumeData actors actor with_viewport with_actors
       option_map rgbTransferFunction scalarOpacity properties console].
  rewrite addRGBPoints_map. repeat split.
Qed.

Lemma setRGBTransferFunction_replaces_witness :
  editable Sample.loaded /\
  colorStops
    (setRGBTransferFunction
       [mkColorPoint 200 (8 / 10, 6 / 10, 4 / 10, 1 / 10);
        mkColorPoint (-1000) (0, 0, 0, 0)] Sample.loaded)
  = Some [(200, (8 / 10, 6 / 10, 4 / 10)); (-1000, (0, 0, 0))].
Proof.
  assert (H : editable Sample.loaded) by (split; discriminate).
  split; [exact H|].
  exact (proj1 (setRGBTransferFunction_replaces _ Sample.loaded H)).
Defined.

(** X9: each of the three setters replaces its own part of the state:
    on a viewer with a viewport and a bound volume, a second call
    overwrites the first, for the window, the colour stops and the
    global opacity alike. *)
Theorem setters_last_write_wins (v : VolumeViewer3D)
    (w1 c1 w2 c2 o1 o2 : R) (stops1 stops2 : list ColorPoint)
    (Hviewport : viewport v <> None)
    (Hvolume : currentVolumeData v <> None) :
  setWindowLevel w2 c2 (setWindowLevel w1 c1 v) = setWindowLevel w2 c2 v /\
  setRGBTransferFunction stops2 (setRGBTransferFunction stops1 v)
    = setRGBTransferFunction stops2 v /\
  setVolumeOpacity o2 (setVolumeOpacity o1 v) = setVolumeOpacity o2 v.
Proof.
  destruct v as [[[cam acts props]|] g i [data|] c k];
    try (now elim Hviewport); try (now elim Hvolume).
  destruct acts as [|[[property|]] others];
    unfold setWindowLevel, setRGBTransferFunction, setVolumeOpacity,
      updateFirstActor; repeat split.
Qed.

Lemma setters_last_write_wins_witness :
  setWindowLevel 400 50 (setWindowLevel (-10) 0 Sample.loaded)
  = setWindowLevel 400 50 Sample.loaded.
Proof.
  apply (setters_last_write_wins Sample.loaded (-10) 0 400 50 0 0 [] []);
    discriminate.
Defined.

(** X10: the window, the colour stops and the global opacity are
    independent parts of the state: on a viewer with a viewport and a
    bound volume the three setters commute, so a preset that carries all
    three gives the same state in whatever order its steps are taken. *)
Theorem setters_commute (v : VolumeViewer3D) (name : string)
    (w c o : R) (point : ColorPoint) (points : list ColorPoint)
    (Hviewport : viewport v <> None)
    (Hvolume : currentVolumeData v <> None) :
  let stops := point :: points in
  setRGBTransferFunction stops (setWindowLevel w c v)
    = setWindowLevel w c (setRGBTransferFunction stops v) /\
  setVolumeOpacity o (setWindowLevel w c v)
    = setWindowLevel w c (setVolumeOpacity o v) /\
  setVolumeOpacity o (setRGBTransferFunction stops v)
    = setRGBTransferFunction stops (setVolumeOpacity o v) /\
  apply3DPreset
    (mkPreset name (Some stops) (Some (mkWindowLevel w c)) (Some o)) v
    = setWindowLevel w c (setRGBTransferFunction stops (setVolumeOpacity o v)).
Proof.
  destruct v as [[[cam acts props]|] g i [data|] c0 k];
    try (now elim Hviewport); try (now elim Hvolume).
  destruct acts as [|[[property|]] others];
    unfold apply3DPreset, setWindowLevel, setRGBTransferFunction,
      setVolumeOpacity, updateFirstActor; repeat split.
Qed.

Lemma setters_commute_witness :
  setVolumeOpacity (7 / 10) (setWindowLevel 2000 300 Sample.loaded)
  = setWindowLevel 2000 300 (setVolumeOpacity (7 / 10) Sample.loaded).
Proof.
  apply (setters_commute Sample.loaded "CT Bone" 2000 300 (7 / 10)
           (mkColorPoint 0 (0, 0, 0, 0)) []); discriminate.
Defined.

(** X11: every window preset of the viewer has a positive width, so on a
    viewer with a bound volume and a volume property a known preset
    leaves a rising ramp, from opacity 0 at [center - width/2] to
    opacity 1 at [center + width/2]; a name that is neither a key of the
    table nor a member name inherited from [Object.prototype] changes
    nothing and writes no warning. *)
Theorem applyWindowLevelPreset_rising_ramp (presetName : string)
    (v : VolumeViewer3D) (Heditable : editable v) :
  (windowLevelPresets presetName = None ->
   JS.isInherited presetName = false ->
   applyWindowLevelPreset presetName v = v) /\
  (forall wl,
      windowLevelPresets presetName = Some wl ->
      0 < width wl /\
      exists lo hi,
        opacityRamp (applyWindowLevelPreset presetName v)
          = Some [(lo, 0); (hi, 1)] /\
        lo < hi /\ hi - lo = width wl /\ (lo + hi) / 2 = center wl).
Proof.
  unfold applyWindowLevelPreset. split.
  - intros Hname Hplain. now rewrite (get_undefined _ _ Hname Hplain).
  - intros wl Hwl. rewrite (get_own _ _ _ Hwl).
    assert (Hwidth : 0 < width wl).
    { unfold windowLevelPresets in Hwl.
      repeat match type of Hwl with
             | (if ?b then _ else _) = _ => destruct b
             end;
        try discriminate; injection Hwl as <-; simpl; lra. }
    split; [exact Hwidth|].
    destruct (editable_inv v Heditable)
      as (cam & property & others & props & g & i & data & c & k & ->).
    exists (center wl - width wl / 2), (center wl + width wl / 2).
    split; [reflexivity|]. repeat split; lra.
Qed.

Lemma applyWindowLevelPreset_rising_ramp_witness :
  editable Sample.loaded /\
  applyWindowLevelPreset "bones" Sample.loaded = Sample.loaded /\
  exists lo hi,
    opacityRamp (applyWindowLevelPreset "lung" Sample.loaded)
      = Some [(lo, 0); (hi, 1)] /\ lo < hi.
Proof.
  assert (H : editable Sample.loaded) by (split; discriminate).
  split; [exact H|].
  destruct (applyWindowLevelPreset_rising_ramp "bones" Sample.loaded H)
    as [Hunknown _].
  destruct (applyWindowLevelPreset_rising_ramp "lung" Sample.loaded H)
    as [_ Hknown].
  split; [exact (Hunknown eq_refl eq_refl)|].
  destruct (Hknown (mkWindowLevel 1500 (-600)) eq_refl)
    as [_ [lo [hi [Hramp [Hlt _]]]]].
  exists lo, hi. split; assumption.
Defined.

(** X12: every opacity preset lies between 0.2 and 0.9: on a viewer with
    a viewport and a bound volume a known preset sets the global opacity
    multiplier to its table value and leaves the transfer functions
    alone; a name that is neither a key of the table nor a member name
    inherited from [Object.prototype] changes nothing and writes no
    warning. *)
Theorem applyOpacityPreset_in_range (presetName : string)
    (v : VolumeViewer3D)
    (Hviewport : viewport v <> None)
    (Hvolume : currentVolumeData v <> None) :
  (opacityPresets presetName = None ->
   JS.isInherited presetName = false ->
   applyOpacityPreset presetName v = v) /\
  (forall o,
      opacityPresets presetName = Some o ->
      2 / 10 <= o <= 9 / 10 /\
      option_map globalOpacityMultiplier
        (propertiesOf (applyOpacityPreset presetName v)) = Some (Some o) /\
      opacityRamp (applyOpacityPreset presetName v) = opacityRamp v /\
      colorStops (applyOpacityPreset presetName v) = colorStops v /\
      console (applyOpacityPreset presetName v) = console v).
Proof.
  unfold applyOpacityPreset. split.
  - intros Hname Hplain. now rewrite (get_undefined _ _ Hname Hplain).
  - intros o Ho. rewrite (get_own _ _ _ Ho). split.
    + unfold opacityPresets in Ho.
      repeat match type of Ho with
             | (if ?b then _ else _) = _ => destruct b
             end;
        try discriminate; injection Ho as <-; lra.
    + destruct v as [[[cam acts props]|] g i [data|] c k];
        try (now elim Hviewport); try (now elim Hvolume).
      repeat split.
Qed.

Lemma applyOpacityPreset_in_range_witness :
  applyOpacityPreset "glass" Sample.loaded = Sample.loaded /\
  option_map globalOpacityMultiplier
    (propertiesOf (applyOpacityPreset "vessel" Sample.loaded))
  = Some (Some (8 / 10)).
Proof.
  destruct (applyOpacityPreset_in_range "glass" Sample.loaded
              ltac:(discriminate) ltac:(discriminate)) as [Hunknown _].
  destruct (applyOpacityPreset_in_range "vessel" Sample.loaded
              ltac:(discriminate) ltac:(discriminate)) as [_ Hknown].
  split; [exact (Hunknown eq_refl eq_refl)|].
  exact (proj1 (proj2 (Hknown (8 / 10) eq_refl))).
Defined.

(** X13: each of the seven built-in 3D presets is well formed: its colour
    points rise strictly in scalar value (the order the transfer
    function expects of its caller), its window is positive and its
    opacity lies in (0, 1].  Applied through the application to a viewer
    with a bound volume and a volume property, it leaves exactly those
    colour stops, the ramp of its window and its opacity. *)
Theorem builtin_presets_well_formed (presetName : string) (p : Preset)
    (app : App.MedicalImagingApp) (viewer : VolumeViewer3D)
    (Hpreset : Shell.presets presetName = Some p)
    (Hviewer : App.volumeViewer app = Some viewer)
    (Heditable : editable viewer) :
  exists stops wl o viewer',
    colorPoints p = Some stops /\
    windowLevel p = Some wl /\
    opacity p = Some o /\
    ascending (map cp_value stops) /\
    0 < width wl /\ 0 < o <= 1 /\
    App.volumeViewer (Shell.apply3DPreset presetName app) = Some viewer' /\
    colorStops viewer' = Some (map stopOf stops) /\
    opacityRamp viewer' =
      Some [(center wl - width wl / 2, 0); (center wl + width wl / 2, 1)] /\
    option_map globalOpacityMultiplier (propertiesOf viewer')
      = Some (Some o).
Proof.
  unfold Shell.apply3DPreset. rewrite (get_own _ _ _ Hpreset), Hviewer.
  destruct (editable_inv viewer Heditable)
    as (cam & property & others & props & g & i & data & c & k & ->).
  unfold Shell.presets in Hpreset.
  repeat match type of Hpreset with
         | (if ?b then _ else _) = _ => destruct b
         end;
    try discriminate; injection Hpreset as <-;
    (do 4 eexists; repeat (split; [reflexivity|]));
    cbn [map cp_value ascending width];
    repeat split; lra.
Qed.

Lemma builtin_presets_well_formed_witness :
  editable Sample.loaded /\
  exists viewer',
    App.volumeViewer
      (Shell.apply3DPreset "ct-lung"
         (App.mkApp (Some Sample.loaded) [] [])) = Some viewer' /\
    opacityRamp viewer' =
      Some [(-600 - 1500 / 2, 0); (-600 + 1500 / 2, 1)].
Proof.
  assert (H : editable Sample.loaded) by (split; discriminate).
  split; [exact H|].
  destruct (builtin_presets_well_formed "ct-lung" _
              (App.mkApp (Some Sample.loaded) [] []) Sample.loaded
              eq_refl eq_refl H)
    as (stops & wl & o & viewer' & _ & Hwl & _ & _ & _ & _ & Hv & _ & Hr & _).
  exists viewer'. split; [exact Hv|].
  injection Hwl as <-. exact Hr.
Defined.




(** X15: the four tissue sliders of the application reach the viewer
    under keys of its table (the hyphen of soft-tissue is dropped): on a
    viewer with a viewport and a bound volume, moving one replaces the
    transfer-function points by the two ends of that tissue's range,
    lower end first, both with the slider's opacity and the tissue's
    colour. *)
Theorem onTissueOpacityInput_two_points (tissue : string) (o : R)
    (app : App.MedicalImagingApp) (viewer : VolumeViewer3D)
    (vp : Viewport) (data : VolumeData)
    (Hslider : In tissue Shell.tissueSliders)
    (Hviewer : App.volumeViewer app = Some viewer)
    (Hviewport : viewport viewer = Some vp)
    (Hvolume : currentVolumeData viewer = Some data) :
  exists viewer' lo hi color,
    App.volumeViewer (Shell.onTissueOpacityInput tissue o app)
      = Some viewer' /\
    lookupRange (Shell.dropFirstHyphen tissue) tissueTable = Some (lo, hi) /\
    lo < hi /\
    getTissueColor (Shell.dropFirstHyphen tissue) = Some color /\
    option_map transferFunctionPoints (propertiesOf viewer') =
      Some [ mkTFPoint lo o color; mkTFPoint hi o color ].
Proof.
  unfold Shell.onTissueOpacityInput. rewrite Hviewer.
  unfold Shell.tissueSliders in Hslider.
  destruct Hslider as [<- | [<- | [<- | [<- | []]]]];
    (eexists; eexists; eexists; eexists; split; [reflexivity|]);
    (split; [reflexivity|]); (split; [lra|]); (split; [reflexivity|]);
    unfold setTissueOpacities, propertiesOf;
    rewrite Hviewport, Hvolume; reflexivity.
Qed.

Lemma onTissueOpacityInput_two_points_witness :
  In "soft-tissue" Shell.tissueSliders /\
  exists viewer',
    App.volumeViewer
      (Shell.onTissueOpacityInput "soft-tissue" (4 / 10)
         (App.mkApp (Some Sample.loaded) [] [])) = Some viewer' /\
    option_map transferFunctionPoints (propertiesOf viewer') =
      Some [ mkTFPoint (-100) (4 / 10) (9 / 10, 7 / 10, 6 / 10);
             mkTFPoint 200 (4 / 10) (9 / 10, 7 / 10, 6 / 10) ].
Proof.
  assert (H : In "soft-tissue" Shell.tissueSliders)
    by (right; left; reflexivity).
  split; [exact H|].
  destruct (onTissueOpacityInput_two_points "soft-tissue" (4 / 10)
              (App.mkApp (Some Sample.loaded) [] []) Sample.loaded _ _
              H eq_refl eq_refl eq_refl)
    as (viewer' & lo & hi & color & Hv & Hrange & _ & Hcolor & Hpoints).
  exists viewer'. split; [exact Hv|].
  injection Hrange as <- <-.
  change (Some (9 / 10, 7 / 10, 6 / 10) = Some color) in Hcolor.
  injection Hcolor as <-. exact Hpoints.
Defined.

(** X16: the window preset buttons of the application carry the values
    the viewer's own preset table has under the same name: a click does
    to the viewer what [applyWindowLevelPreset] of that name does, and
    reports it. *)
Theorem onWindowPresetClick_agrees (preset : string) (wl : WindowLevel)
    (app : App.MedicalImagingApp) (viewer : VolumeViewer3D)
    (Hbutton : Shell.windowPresets preset = Some wl)
    (Hviewer : App.volumeViewer app = Some viewer) :
  windowLevelPresets preset = Some wl /\
  App.volumeViewer (Shell.onWindowPresetClick preset app)
    = Some (applyWindowLevelPreset preset viewer) /\
  App.messages (Shell.onWindowPresetClick preset app)
    = App.messages app ++
      [(App.success, ("Applied " ++ preset ++ " window preset")%string)].
Proof.
  assert (Hsame : windowLevelPresets preset = Some wl).
  { unfold Shell.windowPresets in Hbutton. unfold windowLevelPresets.
    repeat match type of Hbutton with
           | (if String.eqb ?a ?b then _ else _) = _ =>
               destruct (String.eqb a b) eqn:?
           end;
      try discriminate; exact Hbutton. }
  split; [exact Hsame|].
  unfold Shell.onWindowPresetClick, applyWindowLevelPreset.
  rewrite Hbutton, (get_own _ _ _ Hsame).
  unfold Shell.setWindowLevel. rewrite Hviewer.
  split; reflexivity.
Qed.

Lemma onWindowPresetClick_agrees_witness :
  App.volumeViewer
    (Shell.onWindowPresetClick "brain"
       (App.mkApp (Some Sample.loaded) [] []))
  = Some (applyWindowLevelPreset "brain" Sample.loaded).
Proof.
  exact (proj1 (proj2 (onWindowPresetClick_agrees "brain"
                         (mkWindowLevel 100 50)
                         (App.mkApp (Some Sample.loaded) [] [])
                         Sample.loaded eq_refl eq_refl))).
Defined.

(** ** Tool bindings over time *)

Lemma toolMap_inv (name : string) (t : Tool) :
  toolMap name = Some t -> name = toolName t.
Proof.
  unfold toolMap.
  destruct (String.eqb_spec name "TrackballRotate") as [->|_];
    [intros [= <-]; reflexivity|].
  destruct (String.eqb_spec name "Pan") as [->|_];
    [intros [= <-]; reflexivity|].
  destruct (String.eqb_spec name "Zoom") as [->|_];
    [intros [= <-]; reflexivity | discriminate].
Qed.

(** X17: from the set-up of the tool group on, whatever names
    [setActiveTool] is called with, one after the other, known or not,
    as long as none is a member name inherited from [Object.prototype],
    exactly one of the three tools is active for the primary button and
    Zoom stays active for the wheel. *)
Theorem setActiveTool_invariant (names : list string) (v : VolumeViewer3D)
    (Hnames : Forall (fun name => JS.isInherited name = false) names) :
  exists g X,
    toolGroup (fold_left (fun s name => setActiveTool name s) names
                         (setupToolGroup v)) = Some g /\
    (forall T, activeFor Primary T g = true <-> T = X) /\
    activeFor Wheel ZoomTool g = true.
Proof.
  assert (Hstep : forall names s,
             Forall (fun name => JS.isInherited name = false) names ->
             (exists g X,
                 toolGroup s = Some g /\
                 (forall T, activeFor Primary T g = true <-> T = X) /\
                 activeFor Wheel ZoomTool g = true) ->
             exists g X,
               toolGroup (fold_left (fun s name => setActiveTool name s)
                                    names s) = Some g /\
               (forall T, activeFor Primary T g = true <-> T = X) /\
               activeFor Wheel ZoomTool g = true).
  { clear names Hnames.
    induction names as [|name names IH]; intros s Hplain Hs.
    - exact Hs.
    - simpl fold_left. inversion Hplain as [|? ? Hname0 Hrest]; subst.
      apply IH; [exact Hrest|].
      destruct Hs as (g & X & Hg & Hprimary & Hwheel).
      destruct (toolMap name) as [Y|] eqn:Hname.
      + apply toolMap_inv in Hname as ->.
        destruct (setActiveTool_bindings Y s g Hg) as (g' & Hg' & H1 & H2).
        now exists g', Y.
      + exists g, X. unfold setActiveTool.
        rewrite Hg, (get_undefined _ _ Hname Hname0).
        repeat split; trivial; apply Hprimary. }
  apply Hstep; [exact Hnames|].
  eexists. exists TrackballRotateTool.
  split; [apply setupToolGroup_initial|].
  split; [|reflexivity].
  intros T; destruct T; unfold activeFor; simpl; split;
    intros; try reflexivity; try discriminate; congruence.
Qed.

(** X18: the last selection wins.  With the tool group set up, selecting
    [Y] after [X] leaves the state that selecting [Y] alone leaves; in
    particular selecting a tool twice is selecting it once. *)
Theorem setActiveTool_last_wins (X Y : Tool) (v : VolumeViewer3D)
    (Hgroup : toolGroup v <> None) :
  setActiveTool (toolName Y) (setActiveTool (toolName X) v)
  = setActiveTool (toolName Y) v.
Proof.
  unfold setActiveTool. rewrite !toolMap_toolName.
  destruct v as [vp [g|] i d c k]; simpl; [|now elim Hgroup].
  unfold with_toolGroup; simpl. do 2 f_equal.
  destruct g as [[mr br] [mp bp] [mz bz]].
  destruct X, Y; unfold setToolActive, setToolPassive; simpl;
    rewrite ?filter_addBinding_Primary, ?filter_addBinding_Wheel,
            ?filter_primary_idempotent, ?addBinding_idempotent;
    repeat match goal with
           | |- context [match addBinding ?b ?l with _ => _ end] =>
               let E := fresh in
               destruct (addBinding b l) eqn:E;
               [now apply addBinding_nonempty in E|]
           end;
    reflexivity.
Qed.

Lemma setActiveTool_last_wins_witness :
  setActiveTool "Pan" (setActiveTool "Zoom" Sample.loaded)
  = setActiveTool "Pan" Sample.loaded.
Proof.
  apply (setActiveTool_last_wins ZoomTool PanTool Sample.loaded).
  discriminate.
Defined.

(** X19: [setRotationEnabled] does not keep the tools exclusive.  After
    Pan or Zoom is selected, enabling rotation leaves both that tool and
    Rotate active for the primary button; after Rotate is selected,
    disabling rotation leaves no tool on the primary button.  Zoom stays
    on the wheel throughout. *)
Theorem setRotationEnabled_breaks_exclusion (v : VolumeViewer3D)
    (g : ToolGroup) (Hgroup : toolGroup v = Some g) :
  (forall X, X <> TrackballRotateTool ->
     exists g',
       toolGroup (setRotationEnabled true (setActiveTool (toolName X) v))
         = Some g' /\
       (forall T, activeFor Primary T g' = true <->
                  T = X \/ T = TrackballRotateTool) /\
       activeFor Wheel ZoomTool g' = true) /\
  (exists g',
     toolGroup (setRotationEnabled false
                  (setActiveTool (toolName TrackballRotateTool) v))
       = Some g' /\
     (forall T, activeFor Primary T g' = false) /\
     activeFor Wheel ZoomTool g' = true).
Proof.
  destruct g as [[mr br] [mp bp] [mz bz]].
  split.
  - intros X HX. unfold setActiveTool, setRotationEnabled.
    rewrite Hgroup, toolMap_toolName.
    cbn [toolGroup with_toolGroup].
    eexists; split; [reflexivity|].
    split.
    + intros T; destruct X, T; try (now elim HX);
        unfold activeFor; simpl;
        repeat match goal with
               | |- context [match filter ?f ?l with _ => _ end] =>
                   destruct (filter f l) eqn:?
               end;
        rewrite ?existsb_addBinding, ?primary_filtered_out; simpl;
        try match goal with
            | H : filter _ ?l = _ |- _ =>
                pose proof (primary_filtered_out l) as Hp; rewrite H in Hp;
                simpl in Hp
            end;
        split; intros; try reflexivity; try discriminate;
        try (left; reflexivity); try (right; reflexivity);
        try match goal with
            | H : _ \/ _ |- _ => destruct H; discriminate
            end;
        try congruence.
    + destruct X; try (now elim HX); unfold activeFor; simpl;
        rewrite ?existsb_addBinding; simpl; reflexivity.
  - unfold setActiveTool, setRotationEnabled.
    rewrite Hgroup, toolMap_toolName.
    cbn [toolGroup with_toolGroup].
    eexists; split; [reflexivity|].
    split.
    + intros T; destruct T; unfold activeFor; simpl;
        rewrite ?filter_addBinding_Primary, ?filter_primary_idempotent;
        repeat match goal with
               | |- context [match filter ?f ?l with _ => _ end] =>
                   destruct (filter f l) eqn:?
               end;
        rewrite ?existsb_addBinding, ?primary_filtered_out; simpl;
        try match goal with
            | H : filter _ ?l = _ |- _ =>
                pose proof (primary_filtered_out l) as Hp; rewrite H in Hp;
                simpl in Hp
            end;
        try reflexivity; try assumption.
    + unfold activeFor; simpl; rewrite ?existsb_addBinding; simpl.
      reflexivity.
Qed.

Lemma setRotationEnabled_breaks_exclusion_witness :
  toolGroup
    (setRotationEnabled true (setActiveTool "Pan" Sample.loaded))
  = Some (mkToolGroup (mkToolOptions Active [Primary])
                      (mkToolOptions Active [Primary])
                      (mkToolOptions Active [Wheel])) /\
  exists g',
    toolGroup (setRotationEnabled false
                 (setActiveTool "TrackballRotate" Sample.loaded))
      = Some g' /\
    (forall T, activeFor Primary T g' = false).
Proof.
  split; [reflexivity|].
  destruct (proj2 (setRotationEnabled_breaks_exclusion
                     Sample.loaded Sample.tools eq_refl))
    as [g' [Hg' [Hnone _]]].
  exists g'. split; assumption.
Defined.

(** ** Volume lifecycle, further *)

(** X20: a destroyed viewer is inert.  Binding a volume is refused, the
    camera operations do nothing, the getters give their defaults, and
    the setters and the tool switch only write their warning; viewport,
    tool group and volume stay absent. *)
Theorem destroy_inert (v : VolumeViewer3D) (engine : EngineOutcome)
    (imageIds : list string) (metadata : Metadata) (name : string)
    (x y : R) (stops : list ColorPoint) (p : Preset)
    (tissues : list (string * R)) :
  let d := destroy v in
  displayVolume engine imageIds metadata d
    = Throw "Volume viewer not initialized" d /\
  rotateAroundAxis name x d = d /\
  setPresetView name d = d /\
  setupInitialCamera d = d /\
  setRotationEnabled true d = d /\
  getWindowLevel d = mkWindowLevel 400 50 /\
  imageCount d = None /\
  (forall op,
      In op [setWindowLevel x y; setVolumeOpacity x;
             setRGBTransferFunction stops; apply3DPreset p;
             setTissueOpacities tissues; setActiveTool name;
             applyOpacityPreset name; applyWindowLevelPreset name] ->
      viewport (op d) = None /\ toolGroup (op d) = None /\
      currentVolumeData (op d) = None /\ cache (op d) = None /\
      isInitialized (op d) = false).
Proof.
  intros d. subst d. unfold destroy.
  repeat split; try reflexivity;
    repeat match goal with
           | H : In _ (_ :: _) |- _ => destruct H as [<- | H]
           | H : In _ [] |- _ => destruct H
           end;
    try reflexivity;
    try (unfold applyOpacityPreset;
         destruct (JS.get opacityPresets name); reflexivity);
    try (unfold applyWindowLevelPreset;
         destruct (JS.get windowLevelPresets name); reflexivity).
Qed.

(** X21: [displayVolume] itself sets no lower bound on the number of
    slices.  On an initialised viewer with a viewport, whenever the
    engine attaches the volume the call returns, for any list of image
    ids, the empty one included: the volume is cached and bound with
    exactly those ids, the actors are the engine's, the preset is
    CT-Bone, and the camera frames the new volume's bounds whatever it
    showed before. *)
Theorem displayVolume_success (volume : Volume) (acts : list ActorEntry)
    (imageIds : list string) (metadata : Metadata) (v : VolumeViewer3D)
    (vp : Viewport)
    (Hinit : isInitialized v = true)
    (Hviewport : viewport v = Some vp) :
  exists v',
    displayVolume (Attached volume acts) imageIds metadata v = Return v' /\
    imageCount v' = Some (List.length imageIds) /\
    currentVolumeData v' = Some (mkVolumeData volume imageIds metadata) /\
    cache v' = Some volume /\
    option_map actors (viewport v') = Some acts /\
    option_map preset (propertiesOf v') = Some (Some "CT-Bone") /\
    cameraOf v' = cameraOf (setupInitialCamera
                              (with_cache (Some volume) v)) /\
    option_map focalPoint (cameraOf v')
      = Some (centerOf (imageData_bounds volume)) /\
    console v' = console v.
Proof.
  unfold displayVolume. rewrite Hinit.
  cbn [negb viewport with_currentVolumeData with_cache].
  rewrite Hviewport.
  eexists; split; [reflexivity|].
  unfold setupInitialCamera, imageCount, cameraOf, propertiesOf.
  cbn [viewport with_viewport with_cache cache currentVolumeData
       with_currentVolumeData].
  rewrite Hviewport.
  cbn [option_map viewport with_viewport camera with_camera actors
       with_actors properties with_properties preset vd_imageIds
       centerOf focalPoint console].
  repeat split.
Qed.

Lemma displayVolume_success_witness :
  exists v',
    displayVolume (Attached Sample.volume []) [] Sample.metadata
                  Sample.empty = Return v' /\
    imageCount v' = Some 0%nat.
Proof.
  destruct (displayVolume_success Sample.volume [] [] Sample.metadata
              Sample.empty _ eq_refl eq_refl) as [v' [Hv' [Hcount _]]].
  exists v'. split; assumption.
Defined.

(** X22: a failed [displayVolume] does not leave the viewer without a
    volume.  If building or loading fails, the cache entry is gone or
    replaced, yet the record of the volume bound before is kept, so the
    viewer goes on reporting and editing it; if attaching fails, the
    record already names the new volume.  Each failure is logged once and
    thrown on with its message. *)
Theorem displayVolume_failure (imageIds : list string)
    (metadata : Metadata) (v : VolumeViewer3D) (message : string)
    (volume : Volume)
    (Hinit : isInitialized v = true) :
  let logged s := console_error "Error displaying volume:" [message] s in
  displayVolume (CreateFails message) imageIds metadata v
    = Throw message (logged (with_cache None v)) /\
  displayVolume (LoadFails volume message) imageIds metadata v
    = Throw message (logged (with_cache (Some volume) v)) /\
  displayVolume (AttachFails volume message) imageIds metadata v
    = Throw message
        (logged (with_currentVolumeData
                   (Some (mkVolumeData volume imageIds metadata))
                   (with_cache (Some volume) v))) /\
  (forall engine v',
      engine = CreateFails message \/ engine = LoadFails volume message ->
      displayVolume engine imageIds metadata v = Throw message v' ->
      currentVolumeData v' = currentVolumeData v /\
      imageCount v' = imageCount v /\
      getWindowLevel v' = getWindowLevel v /\
      viewport v' = viewport v).
Proof.
  intros logged. unfold displayVolume. rewrite Hinit.
  cbn [negb]. repeat split;
    destruct H as [-> | ->]; injection H0 as <-; reflexivity.
Qed.

Lemma displayVolume_failure_witness :
  displayVolume (CreateFails "out of memory") ["slice:9"] Sample.metadata
                Sample.loaded
  = Throw "out of memory"
      (console_error "Error displaying volume:" ["out of memory"]
                     (with_cache None Sample.loaded)) /\
  imageCount
    (console_error "Error displaying volume:" ["out of memory"]
                   (with_cache None Sample.loaded)) = Some 2%nat.
Proof.
  split; [|reflexivity].
  exact (proj1 (displayVolume_failure ["slice:9"] Sample.metadata
                  Sample.loaded "out of memory" Sample.volume eq_refl)).
Defined.

(** ** Slice loader *)

Lemma loadMultipleDicomFiles_fold (files : list File) (acc : LoadResults) :
  let out :=
    fold_left
      (fun acc result =>
         match snd result with
         | inr value =>
             mkLoadResults (successful acc ++ [value]) (failed acc)
                           (total acc)
         | inl message =>
             mkLoadResults (successful acc)
                           (failed acc ++ [(file_name (fst result), message)])
                           (total acc)
         end)
      (map (fun file => (file, loadDicomFile file)) files) acc in
  successful out = successful acc ++ loadedOf files /\
  failed out = failed acc ++ rejectedOf files /\
  total out = total acc.
Proof.
  revert acc. induction files as [|file files IH]; intros acc.
  - simpl. now rewrite !app_nil_r.
  - simpl map. simpl fold_left. cbn [snd fst].
    match goal with
    | |- context [fold_left _ _ ?a] => destruct (IH a) as (H1 & H2 & H3)
    end.
    cbv zeta in *. rewrite H1, H2, H3.
    unfold loadedOf, rejectedOf. cbn [flat_map].
    destruct (loadDicomFile file) as [message | image];
      cbn [successful failed total]; rewrite <- ?app_assoc;
      repeat split.
Qed.

Lemma length_flat_map_partition (files : list File) :
  (List.length (loadedOf files) + List.length (rejectedOf files)
   = List.length files)%nat.
Proof.
  unfold loadedOf, rejectedOf.
  induction files as [|file files IH]; [reflexivity|].
  cbn [flat_map]. rewrite !length_app.
  destruct (loadDicomFile file); simpl; lia.
Qed.

(** X23: the loader never fails as a whole and loses no file: every file
    ends on exactly one of the two lists, each list keeps the order of
    the files, and [total] counts them all.  A loaded image is listed
    exactly for the files that pass [isDicomFile] and decode. *)
Theorem loadMultipleDicomFiles_partition (files : list File) :
  let results := loadMultipleDicomFiles files in
  successful results = loadedOf files /\
  failed results = rejectedOf files /\
  total results = List.length files /\
  (List.length (successful results) + List.length (failed results)
   = List.length files)%nat /\
  (forall image,
      In image (successful results) <->
      exists file imageId metadata,
        In file files /\ isDicomFile file = true /\
        file_outcome file = Decoded imageId metadata /\
        image = mkLoadedImage imageId metadata (file_name file)).
Proof.
  intros results. subst results. unfold loadMultipleDicomFiles.
  destruct (loadMultipleDicomFiles_fold files
              (mkLoadResults [] [] (List.length files)))
    as (H1 & H2 & H3).
  cbv zeta in *. cbn [successful failed total app] in *.
  rewrite H1, H2, H3.
  split; [reflexivity|]. split; [reflexivity|]. split; [reflexivity|].
  split; [apply length_flat_map_partition|].
  intros image. unfold loadedOf. rewrite in_flat_map. split.
  - intros (file & Hin & Himage). unfold loadDicomFile in Himage.
    destruct (isDicomFile file) eqn:Hvalid; simpl in Himage; [|easy].
    destruct (file_outcome file) as [| message | imageId metadata] eqn:Hout;
      simpl in Himage; try easy.
    destruct Himage as [<- | []].
    now exists file, imageId, metadata.
  - intros (file & imageId & metadata & Hin & Hvalid & Hout & ->).
    exists file. split; [exact Hin|].
    unfold loadDicomFile. rewrite Hvalid, Hout. simpl. now left.
Qed.

Lemma lowerAscii_idempotent (c : ascii) :
  JS.lowerAscii (JS.lowerAscii c) = JS.lowerAscii c.
Proof.
  destruct c as [[] [] [] [] [] [] [] []]; reflexivity.
Qed.

Lemma toLowerCase_idempotent (s : string) :
  JS.toLowerCase (JS.toLowerCase s) = JS.toLowerCase s.
Proof.
  induction s as [|c s IH]; simpl; [reflexivity|].
  now rewrite lowerAscii_idempotent, IH.
Qed.

(** X24: [isDicomFile] looks at the end of the name and at the media
    type only.  A file passes exactly when its name, in lower case, ends
    in [.dcm] or [.dicom] and its media type is [application/dicom],
    [application/octet-stream] or empty; the case of the name makes no
    difference, and a file that does not pass is rejected as invalid
    without being read. *)
Theorem isDicomFile_by_name_and_type (file : File) :
  isDicomFile file =
    (JS.endsWith (JS.toLowerCase (file_name file)) ".dcm" ||
     JS.endsWith (JS.toLowerCase (file_name file)) ".dicom") &&
    validMimeType (file_type file) /\
  isDicomFile (mkFile (JS.toLowerCase (file_name file)) (file_type file)
                      (file_outcome file))
    = isDicomFile file /\
  (isDicomFile file = false ->
   loadDicomFile file = inl "Invalid DICOM file").
Proof.
  assert (Hshape : forall f,
             isDicomFile f =
             (JS.endsWith (JS.toLowerCase (file_name f)) ".dcm" ||
              JS.endsWith (JS.toLowerCase (file_name f)) ".dicom") &&
             validMimeType (file_type f)).
  { intros f. unfold isDicomFile, JS.some, validMimeType.
    cbn [existsb].
    change (JS.toLowerCase ".dcm") with ".dcm".
    change (JS.toLowerCase ".dicom") with ".dicom".
    change (JS.toLowerCase ".DCM") with ".dcm".
    change (JS.toLowerCase ".DICOM") with ".dicom".
    destruct (JS.endsWith (JS.toLowerCase (file_name f)) ".dcm");
      destruct (JS.endsWith (JS.toLowerCase (file_name f)) ".dicom");
      reflexivity. }
  split; [apply Hshape|]. split.
  - rewrite !Hshape. cbn [file_name file_type].
    now rewrite toLowerCase_idempotent.
  - intros Hinvalid. unfold loadDicomFile. now rewrite Hinvalid.
Qed.

(** ** Upload *)

Lemma loadedOf_length_le (files : list File) :
  (List.length (loadedOf files) <= List.length files)%nat.
Proof.
  pose proof (length_flat_map_partition files). lia.
Qed.

Lemma successful_loadedOf (files : list File) :
  successful (loadMultipleDicomFiles files) = loadedOf files.
Proof.
  unfold loadMultipleDicomFiles.
  destruct (loadMultipleDicomFiles_fold files
              (mkLoadResults [] [] (List.length files))) as (H1 & _).
  exact H1.
Qed.



Lemma string_append_assoc (a b c : string) :
  ((a ++ b) ++ c = a ++ (b ++ c))%string.
Proof.
  induction a as [|x a IH]; simpl; [reflexivity | now rewrite IH].
Qed.

Lemma displayVolume_attached_toolGroup (volume : Volume)
    (acts : list ActorEntry) (imageIds : list string) (metadata : Metadata)
    (v v' : VolumeViewer3D) :
  displayVolume (Attached volume acts) imageIds metadata v = Return v' ->
  toolGroup v' = toolGroup v.
Proof.
  unfold displayVolume. destruct (isInitialized v); simpl; [|discriminate].
  destruct (viewport v) as [vp|]; [|discriminate].
  intros [= <-]. reflexivity.
Qed.

(** X26: every successful load hands the primary button back to Rotate.
    With two or more loaded slices, an initialised viewer with viewport
    and tool group, and an engine that attaches the volume, the call
    returns; afterwards Rotate alone is active for the primary button,
    whatever tool was selected before, all loaded slices are bound and
    kept as the current images, and one success message gives their
    number and, if any, the number of failures. *)
Theorem loadVolumeFromFiles_success (volume : Volume)
    (acts : list ActorEntry) (files : list File)
    (app : App.MedicalImagingApp) (viewer : VolumeViewer3D)
    (g : ToolGroup)
    (Hslices : (2 <= List.length (loadedOf files))%nat)
    (Hviewer : App.volumeViewer app = Some viewer)
    (Hinit : isInitialized viewer = true)
    (Hviewport : viewport viewer <> None)
    (Hgroup : toolGroup viewer = Some g) :
  exists app' viewer' g',
    App.loadVolumeFromFiles (Attached volume acts) files app = Return app' /\
    App.volumeViewer app' = Some viewer' /\
    toolGroup viewer' = Some g' /\
    (forall T, activeFor Primary T g' = true <-> T = TrackballRotateTool) /\
    activeFor Wheel ZoomTool g' = true /\
    imageCount viewer' = Some (List.length (loadedOf files)) /\
    App.currentImages app' = loadedOf files /\
    App.messages app' =
      App.messages app ++
      [(App.success,
        ("Successfully created 3D volume from " ++
         App.showNat (List.length (loadedOf files)) ++ " files" ++
         (if (0 <? List.length (rejectedOf files))%nat
          then " (" ++ App.showNat (List.length (rejectedOf files)) ++
               " failed)"
          else ""))%string)].
Proof.
  unfold App.loadVolumeFromFiles.
  destruct (loadMultipleDicomFiles_fold files
              (mkLoadResults [] [] (List.length files)))
    as (Hs & Hf & _).
  cbv zeta in Hs, Hf. cbn [successful failed List.app] in Hs, Hf.
  fold (loadMultipleDicomFiles files) in Hs, Hf.
  rewrite Hs, Hf.
  assert (Hltb : (List.length (loadedOf files) <? 2)%nat = false)
    by (apply Nat.ltb_ge; exact Hslices).
  rewrite Hltb.
  destruct (loadedOf files) as [|first rest] eqn:Hloaded;
    [simpl in Hslices; lia|].
  rewrite Hviewer.
  destruct (displayVolume_attached volume acts
              (map li_imageId (first :: rest)) (li_metadata first)
              viewer Hinit Hviewport) as [v' [Hdisplay [Hvp' Hdata]]].
  rewrite Hdisplay.
  pose proof (displayVolume_attached_toolGroup _ _ _ _ _ _ Hdisplay) as Htg.
  rewrite Hgroup in Htg.
  destruct (setActiveTool_bindings TrackballRotateTool v' g Htg)
    as (g' & Hg' & Hprimary & Hwheel).
  destruct (setActiveTool_keeps_volume "TrackballRotate" v') as [Ev Ed].
  eexists. exists (setActiveTool "TrackballRotate" v'), g'.
  split; [reflexivity|]. split; [reflexivity|].
  split; [exact Hg'|]. split; [exact Hprimary|]. split; [exact Hwheel|].
  split.
  - unfold imageCount. rewrite Ev, Ed, Hdata.
    destruct (viewport v'); [|now elim Hvp'].
    simpl. now rewrite length_map.
  - split; [reflexivity|].
    cbn [App.showMessage App.messages].
    destruct (0 <? List.length (rejectedOf files))%nat;
      rewrite ?string_append_assoc; reflexivity.
Qed.

Lemma loadVolumeFromFiles_success_witness :
  exists app' viewer' g',
    App.loadVolumeFromFiles
      (Attached Sample.volume [mkActorEntry (Some Sample.property)])
      [Sample.slice "a"; mkFile "notes.txt" "text/plain" ReadFails;
       Sample.slice "b"]
      (App.mkApp (Some (setActiveTool "Pan" Sample.empty)) [] [])
    = Return app' /\
    App.volumeViewer app' = Some viewer' /\
    toolGroup viewer' = Some g' /\
    (forall T, activeFor Primary T g' = true <-> T = TrackballRotateTool) /\
    App.messages app' =
      [(App.success,
        "Successfully created 3D volume from 2 files (1 failed)")].
Proof.
  destruct (loadVolumeFromFiles_success
              Sample.volume [mkActorEntry (Some Sample.property)]
              [Sample.slice "a"; mkFile "notes.txt" "text/plain" ReadFails;
               Sample.slice "b"]
              (App.mkApp (Some (setActiveTool "Pan" Sample.empty)) [] [])
              (setActiveTool "Pan" Sample.empty)
              (mkToolGroup (mkToolOptions Passive [])
                           (mkToolOptions Active [Primary])
                           (mkToolOptions Active [Wheel])))
    as (app' & viewer' & g' & H1 & H2 & H3 & H4 & _ & _ & _ & H8).
  - vm_compute. lia.
  - reflexivity.
  - reflexivity.
  - discriminate.
  - reflexivity.
  - exists app', viewer', g'. repeat split; try assumption; apply H4.
Defined.

(** ** Volume description *)

Lemma insertImage_perm (a : SliceImage) (l : list SliceImage) :
  Permutation (insertImage a l) (a :: l).
Proof.
  induction l as [|b l IH]; simpl; [reflexivity|].
  destruct (sortPosition a <=? sortPosition b)%Z; [reflexivity|].
  rewrite IH. apply perm_swap.
Qed.

Lemma sortImages_perm (images : list SliceImage) :
  Permutation (sortImages images) images.
Proof.
  induction images as [|a l IH]; simpl; [reflexivity|].
  rewrite insertImage_perm. now constructor.
Qed.

Lemma insertImage_sorted (a : SliceImage) (l : list SliceImage) :
  StronglySorted (fun x y => (sortPosition x <= sortPosition y)%Z) l ->
  StronglySorted (fun x y => (sortPosition x <= sortPosition y)%Z)
                 (insertImage a l).
Proof.
  induction l as [|b l IH]; intros Hsorted; simpl.
  - repeat constructor.
  - inversion Hsorted as [|? ? Hrest Hall]; subst.
    destruct (sortPosition a <=? sortPosition b)%Z eqn:Hle.
    + apply Z.leb_le in Hle. constructor; [exact Hsorted|].
      constructor; [exact Hle|].
      eapply Forall_impl; [|exact Hall]. intros x Hx; simpl in *. lia.
    + apply Z.leb_gt in Hle. constructor; [now apply IH|].
      eapply Permutation_Forall; [symmetry; apply insertImage_perm|].
      constructor; [lia | exact Hall].
Qed.

Lemma sortImages_sorted (images : list SliceImage) :
  StronglySorted (fun x y => (sortPosition x <= sortPosition y)%Z)
                 (sortImages images).
Proof.
  induction images as [|a l IH]; simpl; [constructor|].
  now apply insertImage_sorted.
Qed.

Lemma sortImages_keeps_sorted (images : list SliceImage) :
  StronglySorted (fun x y => (sortPosition x <= sortPosition y)%Z) images ->
  sortImages images = images.
Proof.
  induction images as [|a l IH]; intros Hsorted; [reflexivity|].
  inversion Hsorted as [|? ? Hrest Hall]; subst.
  simpl. rewrite (IH Hrest).
  destruct l as [|b l]; [reflexivity|]. simpl.
  inversion Hall as [|? ? Hab _]; subst.
  apply Z.leb_le in Hab. now rewrite Hab.
Qed.

(** X27: [createVolumeFromImages] throws on an empty list and otherwise
    describes the images in the order of their instance numbers, an
    absent number counting as 0: the image ids are those of the input,
    each once, in rising position; images already in order, those
    without instance numbers among them, keep the order they came in;
    depth is the number of images; width, height and metadata are those
    of an image of least position; and the z spacing is 1. *)
Theorem createVolumeFromImages_sorted (images : list SliceImage) :
  createVolumeFromImages [] = inl "No images provided for volume creation" /\
  (images <> [] ->
   exists d first,
     createVolumeFromImages images = inr d /\
     vdesc_imageIds d = map si_imageId (sortImages images) /\
     Permutation (vdesc_imageIds d) (map si_imageId images) /\
     StronglySorted (fun x y => (sortPosition x <= sortPosition y)%Z)
                    (sortImages images) /\
     (StronglySorted (fun x y => (sortPosition x <= sortPosition y)%Z)
                     images ->
      vdesc_imageIds d = map si_imageId images) /\
     (Forall (fun a => sm_instanceNumber (si_metadata a) = None) images ->
      vdesc_imageIds d = map si_imageId images) /\
     vdesc_depth d = List.length images /\
     In first images /\
     (forall a, In a images -> (sortPosition first <= sortPosition a)%Z) /\
     vdesc_width d = si_width first /\
     vdesc_height d = si_height first /\
     vdesc_metadata d = si_metadata first /\
     spacing_z (vdesc_spacing d) = Num 1).
Proof.
  split; [reflexivity|]. intros Hnonempty.
  destruct images as [|image0 rest]; [now elim Hnonempty|].
  set (images := image0 :: rest).
  pose proof (sortImages_perm images) as Hperm.
  pose proof (sortImages_sorted images) as Hsorted.
  destruct (sortImages images) as [|first others] eqn:Hsort.
  { apply Permutation_nil in Hperm. discriminate. }
  eexists. exists first.
  split; [unfold createVolumeFromImages; reflexivity|].
  fold images. rewrite Hsort.
  cbn [vdesc_imageIds vdesc_depth vdesc_width vdesc_height vdesc_metadata
       vdesc_spacing hd].
  split; [reflexivity|].
  split; [now apply Permutation_map|].
  split; [exact Hsorted|].
  assert (Hkeep : StronglySorted
                    (fun x y => (sortPosition x <= sortPosition y)%Z) images ->
                  map si_imageId (first :: others) = map si_imageId images).
  { intros H. rewrite <- Hsort. now rewrite sortImages_keeps_sorted. }
  split; [exact Hkeep|].
  split.
  { intros Hnone. apply Hkeep.
    assert (Hzero : Forall (fun a => sortPosition a = 0%Z) images).
    { eapply Forall_impl; [|exact Hnone].
      intros a Ha. unfold sortPosition. now rewrite Ha. }
    clear -Hzero. induction images as [|a l IH]; [constructor|].
    inversion Hzero as [|? ? Ha Hl]; subst.
    constructor; [now apply IH|].
    eapply Forall_impl; [|exact Hl]. intros x Hx; simpl in *. lia. }
  split; [now rewrite (Permutation_length Hperm)|].
  split; [apply (Permutation_in _ Hperm); now left|].
  split.
  { intros a Ha. apply (Permutation_in _ (Permutation_sym Hperm)) in Ha.
    inversion Hsorted as [|? ? _ Hall]; subst.
    destruct Ha as [<- | Ha]; [lia|].
    rewrite Forall_forall in Hall. now apply Hall. }
  repeat split.
  unfold calculateVolumeSpacing.
  destruct others as [|second others']; [reflexivity|].
  cbn [spacing_z]. now rewrite Rabs_R1.
Qed.

Lemma createVolumeFromImages_sorted_witness :
  exists d,
    createVolumeFromImages
      [ mkSliceImage 512 512 "slice:c"
          (mkSliceMetadata (Some 3%Z) None Sample.metadata);
        mkSliceImage 512 512 "slice:a"
          (mkSliceMetadata None None Sample.metadata);
        mkSliceImage 512 512 "slice:b"
          (mkSliceMetadata (Some 2%Z) None Sample.metadata) ]
    = inr d /\
    vdesc_imageIds d = ["slice:a"; "slice:b"; "slice:c"].
Proof.
  destruct (proj2 (createVolumeFromImages_sorted
                     [ mkSliceImage 512 512 "slice:c"
                         (mkSliceMetadata (Some 3%Z) None Sample.metadata);
                       mkSliceImage 512 512 "slice:a"
                         (mkSliceMetadata None None Sample.metadata);
                       mkSliceImage 512 512 "slice:b"
                         (mkSliceMetadata (Some 2%Z) None Sample.metadata) ])
                  ltac:(discriminate))
    as (d & first & Hd & Hids & _).
  exists d. split; [exact Hd|]. rewrite Hids. reflexivity.
Defined.

Lemma string_append_nil_r (s : string) : (s ++ "")%string = s.
Proof.
  induction s as [|c s IH]; simpl; [reflexivity | now rewrite IH].
Qed.

Lemma splitAcc_free (sep : ascii) (a rest piece : string) :
  freeOf sep a = true ->
  splitAcc sep (a ++ rest) piece = splitAcc sep rest (piece ++ a).
Proof.
  revert piece. induction a as [|c a IH]; intros piece Hfree.
  - simpl. now rewrite string_append_nil_r.
  - simpl in Hfree. apply andb_prop in Hfree as [Hc Ha].
    apply negb_true_iff in Hc. simpl. rewrite Hc, (IH _ Ha).
    now rewrite string_append_assoc.
Qed.

Lemma split_free (sep : ascii) (a : string) :
  freeOf sep a = true -> split sep a = [a].
Proof.
  intros Hfree. unfold split.
  rewrite <- (string_append_nil_r a) at 1.
  now rewrite splitAcc_free.
Qed.

Lemma split_two (sep : ascii) (a b : string) :
  freeOf sep a = true -> freeOf sep b = true ->
  split sep (a ++ String sep b) = [a; b].
Proof.
  intros Ha Hb. unfold split. rewrite splitAcc_free by exact Ha.
  simpl. rewrite Ascii.eqb_refl. f_equal. now apply split_free.
Qed.

(** X28: the spacing of a volume is read off the pixel spacing text of
    its first image, and only when there are at least two images.  A
    text of two values, row and col with a backslash between, gives x the piece before the backslash and y the
    piece after it, both as text; a text without backslash is x as a
    whole and leaves y at 1; no text leaves both at 1.  With fewer than
    two images the spacing is 1 in x, y and z. *)
Theorem calculateVolumeSpacing_pieces (first second : SliceImage)
    (others : list SliceImage) (row col : string)
    (Hrow : freeOf backslash row = true)
    (Hcol : freeOf backslash col = true)
    (Hrow_text : row <> "") (Hcol_text : col <> "") :
  let images := first :: second :: others in
  calculateVolumeSpacing [] = mkSpacing (Num 1) (Num 1) (Num 1) /\
  calculateVolumeSpacing [first] = mkSpacing (Num 1) (Num 1) (Num 1) /\
  (sm_pixelSpacing (si_metadata first) = None ->
   spacing_x (calculateVolumeSpacing images) = Num 1 /\
   spacing_y (calculateVolumeSpacing images) = Num 1) /\
  (sm_pixelSpacing (si_metadata first) = Some (row ++ String backslash col)%string ->
   spacing_x (calculateVolumeSpacing images) = Str row /\
   spacing_y (calculateVolumeSpacing images) = Str col) /\
  (sm_pixelSpacing (si_metadata first) = Some row ->
   spacing_x (calculateVolumeSpacing images) = Str row /\
   spacing_y (calculateVolumeSpacing images) = Num 1).
Proof.
  intros images. subst images. unfold calculateVolumeSpacing.
  split; [reflexivity|]. split; [reflexivity|].
  split; [|split].
  - intros ->. split; reflexivity.
  - intros ->. cbn [option_map spacing_x spacing_y].
    rewrite split_two by assumption.
    unfold pieceOrOne. cbn [nth_error].
    destruct row; [now elim Hrow_text|].
    destruct col; [now elim Hcol_text|]. split; reflexivity.
  - intros ->. cbn [option_map spacing_x spacing_y].
    rewrite split_free by assumption.
    unfold pieceOrOne. cbn [nth_error].
    destruct row; [now elim Hrow_text|]. split; reflexivity.
Qed.

Lemma calculateVolumeSpacing_pieces_witness :
  spacing_x
    (calculateVolumeSpacing
       [ mkSliceImage 512 512 "slice:a"
           (mkSliceMetadata None (Some ("0.5" ++ String backslash "0.75")%string) Sample.metadata);
         mkSliceImage 512 512 "slice:b"
           (mkSliceMetadata None None Sample.metadata) ]) = Str "0.5" /\
  spacing_y
    (calculateVolumeSpacing
       [ mkSliceImage 512 512 "slice:a"
           (mkSliceMetadata None (Some ("0.5" ++ String backslash "0.75")%string) Sample.metadata);
         mkSliceImage 512 512 "slice:b"
           (mkSliceMetadata None None Sample.metadata) ]) = Str "0.75".
Proof.
  apply (proj1 (proj2 (proj2 (proj2
           (calculateVolumeSpacing_pieces
              (mkSliceImage 512 512 "slice:a"
                 (mkSliceMetadata None (Some ("0.5" ++ String backslash "0.75")%string) Sample.metadata))
              (mkSliceImage 512 512 "slice:b"
                 (mkSliceMetadata None None Sample.metadata))
              [] "0.5" "0.75" eq_refl eq_refl
              ltac:(discriminate) ltac:(discriminate)))))).
  reflexivity.
Defined.

(** ** Further witnesses *)

Lemma destroy_inert_witness :
  viewport (setWindowLevel 400 50 (destroy Sample.loaded)) = None /\
  console (setWindowLevel 400 50 (destroy Sample.loaded))
    = [Warn "No volume available for window level adjustment" []].
Proof.
  split; [|reflexivity].
  pose proof (destroy_inert Sample.loaded (CreateFails "") []
                Sample.metadata "x" 400 50 [] (mkPreset "" None None None)
                []) as H.
  cbv zeta in H.
  destruct H as (_ & _ & _ & _ & _ & _ & _ & H).
  apply (H (setWindowLevel 400 50)). left. reflexivity.
Defined.

Lemma setActiveTool_invariant_witness :
  exists g X,
    toolGroup (setActiveTool "Pan"
                 (setActiveTool "Opacity"
                    (setActiveTool "Zoom" (setupToolGroup Sample.empty))))
      = Some g /\
    (forall T, activeFor Primary T g = true <-> T = X).
Proof.
  assert (Hnames : Forall (fun name => JS.isInherited name = false)
                          ["Zoom"; "Opacity"; "Pan"])
    by (repeat constructor).
  destruct (setActiveTool_invariant ["Zoom"; "Opacity"; "Pan"] Sample.empty
              Hnames)
    as (g & X & Hg & Hprimary & _).
  exists g, X. split; assumption.
Defined.

Lemma loadMultipleDicomFiles_partition_witness :
  map li_fileName
    (successful
       (loadMultipleDicomFiles
          [Sample.slice "a"; mkFile "notes.txt" "text/plain" ReadFails;
           mkFile "b.DCM" "" (Decoded "slice:b" Sample.metadata)]))
  = ["a.dcm"; "b.DCM"].
Proof.
  rewrite (proj1 (loadMultipleDicomFiles_partition
                    [Sample.slice "a";
                     mkFile "notes.txt" "text/plain" ReadFails;
                     mkFile "b.DCM" "" (Decoded "slice:b" Sample.metadata)])).
  reflexivity.
Defined.

Lemma isDicomFile_by_name_and_type_witness :
  isDicomFile (mkFile "scan.dcm.txt" "application/dicom" ReadFails) = false /\
  loadDicomFile (mkFile "scan.dcm.txt" "application/dicom" ReadFails)
    = inl "Invalid DICOM file".
Proof.
  split; [reflexivity|].
  apply (proj2 (proj2 (isDicomFile_by_name_and_type
                         (mkFile "scan.dcm.txt" "application/dicom"
                                 ReadFails)))).
  reflexivity.
Defined.
